(** * Dust: the package usage tracker of [dust_tracker.py]

    A shallow embedding of class [DustTracker] (the SQLite store, the
    inventory scan, the process scan and the statistics) and of the scan
    branch of [DustHandler.do_GET], followed by the properties checked
    against it.

    Conventions of the embedding.
    - Text is [string]: a sequence of bytes.  [bytes.decode()] is the
      identity, so the text read from [pacman] is taken to be ASCII.
    - The two tables are a [gmap] keyed by the primary key [name] and a
      list of rows in insertion order (the AUTOINCREMENT order).  Every
      statement of the program binds a Python [str] or [bool] to a column,
      so a stored column holds a value and never NULL.
    - Python exceptions are values of [exn]; code that can raise runs in
      the monad [M], whose state is the database seen through the open
      connection and the number of times the wall clock was read.
    - What the program reads from the outside (the clock, the output of
      [pacman], the entries of [/proc]) is a record [system] of oracles.
    - SQLite's REAL and Python's [float] are modelled by exact rationals
      [Q]. *)

From Stdlib Require Import ZArith QArith Qround Qminmax Lqa String Ascii List.
From stdpp Require Import gmap strings list fin_maps sorting.

Local Open Scope string_scope.
Local Open Scope list_scope.

(** * Python text primitives *)

Module Py.

(** [str.isspace] on one ASCII character: TAB, LF, VT, FF, CR, the four
    separators FS, GS, RS, US, and the space. *)
Definition isspace (a : ascii) : bool :=
  let n := nat_of_ascii a in
  ((9 <=? n)%nat && (n <=? 13)%nat) || ((28 <=? n)%nat && (n <=? 32)%nat).

Fixpoint lstrip (s : string) : string :=
  match s with
  | String a s' => if isspace a then lstrip s' else s
  | EmptyString => EmptyString
  end.

Definition rstrip (s : string) : string :=
  String.rev (lstrip (String.rev s)).

(** [s.strip()] *)
Definition strip (s : string) : string := rstrip (lstrip s).

(** [s.split(sep)] for a one-character separator: every occurrence
    splits, and the result is never empty. *)
Fixpoint split (sep : ascii) (s : string) : list string :=
  match s with
  | EmptyString => [EmptyString]
  | String a s' =>
      if Ascii.eqb a sep then EmptyString :: split sep s'
      else match split sep s' with
           | w :: ws => String a w :: ws
           | [] => [String a EmptyString]
           end
  end.

(** [s.split(sep, 1)]: only the first occurrence splits. *)
Fixpoint split1 (sep : ascii) (s : string) : list string :=
  match s with
  | EmptyString => [EmptyString]
  | String a s' =>
      if Ascii.eqb a sep then [EmptyString; s']
      else match split1 sep s' with
           | w :: ws => String a w :: ws
           | [] => [String a EmptyString]
           end
  end.

(** [s.split()]: the maximal runs of characters that are not white
    space.  [cur] is the run being read, reversed. *)
Fixpoint split_ws_go (cur : option string) (s : string) : list string :=
  match s with
  | EmptyString => option_list (String.rev <$> cur)
  | String a s' =>
      if isspace a
      then option_list (String.rev <$> cur) ++ split_ws_go None s'
      else split_ws_go (Some (String a (default EmptyString cur))) s'
  end.

Definition split_ws (s : string) : list string := split_ws_go None s.

(** [s.startswith(p)] *)
Definition startswith (p s : string) : bool := String.prefix p s.

Definition isdigit_char (a : ascii) : bool :=
  let n := nat_of_ascii a in (48 <=? n)%nat && (n <=? 57)%nat.

Fixpoint all_digits (s : string) : bool :=
  match s with
  | EmptyString => true
  | String a s' => isdigit_char a && all_digits s'
  end.

(** [s.isdigit()]: not empty and made of digits. *)
Definition isdigit (s : string) : bool :=
  match s with
  | EmptyString => false
  | _ => all_digits s
  end.

End Py.

(** * Exceptions and results *)

(** The exception classes that the modelled code can meet.  [OSError]
    stands for itself and its subclasses ([PermissionError],
    [FileNotFoundError]). *)
Inductive exn : Set :=
| CalledProcessError
| OSError
| KeyError
| IndexError
| TypeError.

Global Instance exn_eq_dec : EqDecision exn.
Proof. solve_decision. Defined.

(** The result of a call that does not touch the store. *)
Inductive result (A : Type) : Type :=
| Ok (a : A)
| Fail (e : exn).
Arguments Ok {A} a.
Arguments Fail {A} e.

(** [l[i]] *)
Definition getitem {A} (l : list A) (i : nat) : result A :=
  match l !! i with
  | Some x => Ok x
  | None => Fail IndexError
  end.

(** * The data model *)

(** A row of table [packages], without its key [name]. *)
Record package : Set := Package {
  description : string;
  install_date : string;
  explicit_install : bool;
  last_seen : string
}.

(** A row of table [usage_events]; the [id] of a row is its position. *)
Record usage_event : Set := UsageEvent {
  package_name : string;
  event_type : string;
  timestamp : string
}.

Global Instance package_eq_dec : EqDecision package.
Proof. solve_decision. Defined.
Global Instance usage_event_eq_dec : EqDecision usage_event.
Proof. solve_decision. Defined.

Record database : Type := Database {
  packages : gmap string package;
  usage_events : list usage_event
}.

(** [init_db] on a file that does not exist yet: two empty tables. *)
Definition init_db : database := Database ∅ [].

(** * The wall clock *)

(** A value of [datetime.datetime]; the fields are in the ranges of the
    class (year 1..9999, month 1..12, ..., microsecond below 10^6). *)
Record datetime : Set := DateTime {
  year : nat; month : nat; day : nat;
  hour : nat; minute : nat; second : nat; microsecond : nat
}.

Definition digit (n : nat) : ascii := ascii_of_nat (48 + n mod 10).

(** The [w] low decimal digits of [n], the value of ["%0wd" % n] for
    [n < 10^w]. *)
Fixpoint digits (w n : nat) : string :=
  match w with
  | O => EmptyString
  | S w' => digits w' (n / 10) +:+ String (digit n) EmptyString
  end.

(** [datetime.isoformat()]: the fraction is printed only when the
    microsecond is not zero. *)
Definition isoformat (d : datetime) : string :=
  digits 4 (year d) +:+ "-" +:+ digits 2 (month d) +:+ "-" +:+ digits 2 (day d)
  +:+ "T" +:+ digits 2 (hour d) +:+ ":" +:+ digits 2 (minute d)
  +:+ ":" +:+ digits 2 (second d)
  +:+ (if Nat.eqb (microsecond d) 0 then "" else "." +:+ digits 6 (microsecond d)).

(** * The outside world *)

(** An entry of [Path('/proc').iterdir()]: its name, whether it is a
    directory, and what [(pid_dir / 'exe').readlink()] gives. *)
Record proc_entry : Type := ProcEntry {
  pe_name : string;
  pe_is_dir : bool;
  pe_exe : result string
}.

(** What one run of the program reads from its environment.
    - [clock n] is the value of the [n]-th call of [datetime.now()];
    - [pacman_Qqe], [pacman_Qi] and [pacman_Qo path] are the decoded
      outputs of [subprocess.check_output], or the exception it raises
      ([CalledProcessError] when [pacman] exits with an error);
    - [proc_iterdir] is the listing of [/proc]. *)
Record system : Type := System {
  clock : nat -> datetime;
  pacman_Qqe : result string;
  pacman_Qi : result string;
  proc_iterdir : result (list proc_entry);
  pacman_Qo : string -> result string
}.

(** * The monad of the tracker's methods *)

(** [db] is the content of the database file as the open connection sees
    it; [ticks] counts the reads of the clock. *)
Record world : Type := World {
  db : database;
  ticks : nat
}.

Inductive outcome (A : Type) : Type :=
| Return (a : A) (w : world)
| Raise (e : exn) (w : world).
Arguments Return {A} a w.
Arguments Raise {A} e w.

Definition M (A : Type) : Type := world -> outcome A.

Definition ret {A} (a : A) : M A := fun w => Return a w.

Definition bind {A B} (m : M A) (k : A -> M B) : M B :=
  fun w => match m w with
           | Return a w' => k a w'
           | Raise e w' => Raise e w'
           end.

Notation "x <- m ;; k" := (bind m (fun x => k))
  (at level 100, m at next level, right associativity).
Notation "m ;;; k" := (bind m (fun _ => k))
  (at level 100, right associativity).

(** A pure call that may raise. *)
Definition lift {A} (r : result A) : M A :=
  fun w => match r with
           | Ok a => Return a w
           | Fail e => Raise e w
           end.

(** [try: body except <classes>: handler] *)
Definition try_except {A} (body : M A) (classes : exn -> bool) (handler : M A) : M A :=
  fun w => match body w with
           | Return a w' => Return a w'
           | Raise e w' => if classes e then handler w' else Raise e w'
           end.

(** [for x in l: s = body x s] *)
Fixpoint for_each {A S} (body : A -> S -> M S) (l : list A) (s : S) : M S :=
  match l with
  | [] => ret s
  | x :: l' => s' <- body x s ;; for_each body l' s'
  end.

(** [conn = sqlite3.connect(DB_PATH); body; conn.commit(); conn.close()].
    The statements of [body] run in the implicit transaction of the
    connection.  When [body] raises, the connection is dropped without a
    commit and the file keeps the content it had at [connect]. *)
Definition connect_commit {A} (body : M A) : M A :=
  fun w => match body w with
           | Return a w' => Return a w'
           | Raise e w' => Raise e (World (db w) (ticks w'))
           end.

(** A statement run on the connection. *)
Definition execute (stmt : database -> database) : M unit :=
  fun w => Return tt (World (stmt (db w)) (ticks w)).

(** * SQL statements that write *)

(** [INSERT OR REPLACE INTO packages (name, description, install_date,
    explicit_install, last_seen) VALUES (?, ?, ?, ?,
    COALESCE((SELECT last_seen FROM packages WHERE name = ?), ?))],
    with the name bound to both name parameters. *)
Definition insert_or_replace_package
    (name descr idate : string) (is_explicit : bool) (now : string)
    (d : database) : database :=
  let seen := match packages d !! name with
              | Some old => last_seen old
              | None => now
              end in
  Database (<[name := Package descr idate is_explicit seen]> (packages d))
           (usage_events d).

(** [SET last_seen = ?] on one row. *)
Definition set_last_seen (now : string) (p : package) : package :=
  Package (description p) (install_date p) (explicit_install p) now.

(** [UPDATE packages SET last_seen = ? WHERE name = ?] *)
Definition update_last_seen (now name : string) (d : database) : database :=
  Database (alter (set_last_seen now) name (packages d)) (usage_events d).

(** [INSERT INTO usage_events (package_name, event_type, timestamp)
    VALUES (?, ?, ?)].  The table declares a foreign key on
    [packages (name)], which SQLite does not enforce unless the connection
    sets [PRAGMA foreign_keys]; the program never does. *)
Definition insert_usage_event (name etype now : string) (d : database) : database :=
  Database (packages d) (usage_events d ++ [UsageEvent name etype now]).

Section Tracker.

Context (sys : system).

(** [datetime.now().isoformat()] *)
Definition now_isoformat : M string :=
  fun w => Return (isoformat (clock sys (ticks w))) (World (db w) (S (ticks w))).

(** [d[k]] on a [dict] *)
Definition dict_getitem (d : gmap string string) (k : string) : result string :=
  match d !! k with
  | Some v => Ok v
  | None => Fail KeyError
  end.

(** [d.get(k, dflt)] *)
Definition dict_get (d : gmap string string) (k dflt : string) : string :=
  default dflt (d !! k).

(** [_save_package(conn, pkg_info, is_explicit)] *)
Definition _save_package (pkg_info : gmap string string) (is_explicit : bool) : M unit :=
  now <- now_isoformat ;;
  name <- lift (dict_getitem pkg_info "name") ;;
  execute (insert_or_replace_package
             name
             (dict_get pkg_info "description" "")
             (dict_get pkg_info "install_date" "")
             is_explicit
             now).

(** [line.split(':', 1)[1].strip()] *)
Definition field_value (line : string) : result string :=
  match getitem (Py.split1 ":" line) 1 with
  | Ok v => Ok (Py.strip v)
  | Fail e => Fail e
  end.

(** [if current_pkg: self._save_package(conn, current_pkg,
    current_pkg['name'] in explicit_set)] *)
Definition save_current (explicit_set : gset string)
    (current_pkg : gmap string string) : M unit :=
  if bool_decide (current_pkg ≠ ∅) then
    name <- lift (dict_getitem current_pkg "name") ;;
    _save_package current_pkg (bool_decide (name ∈ explicit_set))
  else ret tt.

(** The body of the loop over the lines of [pacman -Qi]; the loop state
    is the variable [current_pkg]. *)
Definition scan_line (explicit_set : gset string) (line : string)
    (current_pkg : gmap string string) : M (gmap string string) :=
  if Py.startswith "Name" line then
    save_current explicit_set current_pkg ;;;
    v <- lift (field_value line) ;;
    ret {[ "name" := v ]}
  else if Py.startswith "Description" line then
    v <- lift (field_value line) ;;
    ret (<[ "description" := v ]> current_pkg)
  else if Py.startswith "Install Date" line then
    v <- lift (field_value line) ;;
    ret (<[ "install_date" := v ]> current_pkg)
  else ret current_pkg.

(** [scan_installed_packages]: the result is the returned flag. *)
Definition scan_installed_packages : M bool :=
  try_except
    (explicit <- lift (pacman_Qqe sys) ;;
     let explicit_set : gset string :=
       list_to_set (Py.split "010" (Py.strip explicit)) in
     all_packages <- lift (pacman_Qi sys) ;;
     connect_commit
       (current_pkg <- for_each (scan_line explicit_set)
                                (Py.split "010" all_packages) ∅ ;;
        save_current explicit_set current_pkg ;;;
        ret true))
    (fun e => bool_decide (e = CalledProcessError))
    (ret false).

(** The first loop of [scan_running_processes]: the paths of the running
    executables, one per process, in the order of the listing. *)
Definition read_exe (e : proc_entry) (processes : list string) : M (list string) :=
  if pe_is_dir e && Py.isdigit (pe_name e) then
    try_except
      (exe_path <- lift (pe_exe e) ;; ret (processes ++ [exe_path]))
      (fun x => bool_decide (x = OSError))
      (ret processes)
  else ret processes.

(** The body of the second loop, for one path. *)
Definition scan_process (now exe_path : string) (_ : unit) : M unit :=
  try_except
    (out <- lift (pacman_Qo sys exe_path) ;;
     package_name <- lift (getitem (Py.split_ws out) 4) ;;
     execute (update_last_seen now package_name) ;;;
     execute (insert_usage_event package_name "process_scan" now))
    (fun e => bool_decide (e = CalledProcessError) || bool_decide (e = IndexError))
    (ret tt).

(** [scan_running_processes] *)
Definition scan_running_processes : M bool :=
  try_except
    (entries <- lift (proc_iterdir sys) ;;
     processes <- for_each read_exe entries [] ;;
     connect_commit
       (now <- now_isoformat ;;
        for_each (scan_process now) processes tt ;;;
        ret true))
    (fun _ => true)
    (ret false).

End Tracker.

(** * SQL expressions that read *)

(** SQL truth values: [None] is NULL. *)
Definition sql_and (a b : option bool) : option bool :=
  match a, b with
  | Some false, _ | _, Some false => Some false
  | Some true, Some true => Some true
  | _, _ => None
  end.

(** [x > k] for an integer or NULL [x]. *)
Definition sql_gt (x : option Z) (k : Z) : option bool :=
  (fun v => bool_decide (k < v)%Z) <$> x.

(** A row passes [WHERE c] when [c] is true; false and NULL drop it. *)
Definition sql_where (c : option bool) : Prop := c = Some true.

Global Instance sql_where_dec c : Decision (sql_where c).
Proof. unfold sql_where. apply _. Defined.

(** [CAST (x AS INTEGER)] on a REAL: the fraction is dropped, rounding
    toward zero. *)
Definition cast_integer (x : Q) : Z := Z.quot (Qnum x) (Zpos (Qden x)).

(** [days_unused DESC]: SQLite orders NULL before every value, so
    descending order puts it last. *)
Definition null_lt (a b : option Z) : Prop :=
  match a, b with
  | None, Some _ => True
  | Some x, Some y => (x < y)%Z
  | _, None => False
  end.

Global Instance null_lt_dec a b : Decision (null_lt a b).
Proof. destruct a, b; simpl; apply _. Defined.

(** A row of the packages query: name, stored columns, [days_unused]. *)
Definition stats_row : Type := string * package * option Z.

(** [ORDER BY days_unused DESC, name]; text compares byte by byte. *)
Definition order_by (r1 r2 : stats_row) : Prop :=
  null_lt r2.2 r1.2 ∨ (r1.2 = r2.2 ∧ (r1.1.1 ≤ r2.1.1)%string).

Global Instance order_by_dec r1 r2 : Decision (order_by r1 r2).
Proof. unfold order_by. apply _. Defined.

(** The dictionaries that [get_package_stats] returns. *)
Module Stat.
Record t : Type := Make {
  name : string;
  description : string;
  install_date : string;
  explicit_install : bool;
  last_seen : string;
  days_unused : Z;
  dust_percentage : Q;
  safety : string
}.
End Stat.

(** The dictionary under the key ['stats']. *)
Module Summary.
Record t : Set := Make {
  total : nat;
  unused_week : nat;
  dusty_explicit : nat
}.
End Summary.

Fixpoint mapM_result {A B} (f : A -> result B) (l : list A) : result (list B) :=
  match l with
  | [] => Ok []
  | x :: l' =>
      match f x with
      | Fail e => Fail e
      | Ok y => match mapM_result f l' with
                | Fail e => Fail e
                | Ok ys => Ok (y :: ys)
                end
      end
  end.

(** The body of the loop over the cursor.  [min (None, 365)] raises
    [TypeError]. *)
Definition package_stat (row : stats_row) : result Stat.t :=
  let '(name, p, days) := row in
  match days with
  | None => Fail TypeError
  | Some d =>
      let dust_level := Z.min d 365 in
      let dust_percentage := Qmin ((inject_Z dust_level / 30) * 100) 100 in
      Ok (Stat.Make name (description p) (install_date p)
                    (explicit_install p) (last_seen p) d dust_percentage
                    (if explicit_install p && bool_decide (30 < d)%Z
                     then "safe" else "risky"))
  end.

Section Stats.

(** SQLite's [julianday] on a text argument, [None] for NULL: the
    fractional number of days since noon of 24 November 4714 BC, or
    NULL when the text is not a time value. *)
Context (julianday : string -> option Q).

(** [CAST ((julianday ('now') - julianday (last_seen)) AS INTEGER)],
    where [now] is the value of [julianday ('now')]. *)
Definition days_since (now : Q) (seen : string) : option Z :=
  (fun j => cast_integer (now - j)) <$> julianday seen.

(** [CASE WHEN last_seen = 'Never' THEN 999 ELSE ... END] *)
Definition days_unused (now : Q) (p : package) : option Z :=
  if decide (last_seen p = "Never") then Some 999%Z
  else days_since now (last_seen p).

(** The packages query, rows in the order of [ORDER BY]. *)
Definition select_packages (now : Q) (d : database) : list stats_row :=
  merge_sort order_by
    ((fun np => (np.1, np.2, days_unused now np.2)) <$> map_to_list (packages d)).

(** [WHERE CAST (...) > 7] *)
Definition unused_week_where (now : Q) (np : string * package) : Prop :=
  sql_where (sql_gt (days_since now (last_seen np.2)) 7).

(** [WHERE explicit_install = 1 AND CAST (...) > 30
    AND last_seen != 'Never'] *)
Definition dusty_explicit_where (now : Q) (np : string * package) : Prop :=
  sql_where
    (sql_and
       (sql_and (Some (explicit_install np.2))
                (sql_gt (days_since now (last_seen np.2)) 30))
       (Some (bool_decide (last_seen np.2 ≠ "Never")))).

Global Instance unused_week_where_dec now np : Decision (unused_week_where now np).
Proof. unfold unused_week_where. apply _. Defined.
Global Instance dusty_explicit_where_dec now np : Decision (dusty_explicit_where now np).
Proof. unfold dusty_explicit_where. apply _. Defined.

(** [SELECT COUNT ( * ) FROM packages WHERE ...] *)
Definition count_where (P : string * package -> Prop) `{!∀ np, Decision (P np)}
    (d : database) : nat :=
  size (filter P (packages d)).

(** [get_package_stats].  Each of the three statements that read the
    time evaluates [julianday ('now')] on its own: [now1] for the
    packages query, [now2] and [now3] for the two counts. *)
Definition get_package_stats (now1 now2 now3 : Q) (d : database)
    : result (list Stat.t * Summary.t) :=
  match mapM_result package_stat (select_packages now1 d) with
  | Fail e => Fail e
  | Ok pkgs =>
      Ok (pkgs,
          Summary.Make (size (packages d))
                  (count_where (unused_week_where now2) d)
                  (count_where (dusty_explicit_where now3) d))
  end.

End Stats.

(** * The scan cycle *)

Section Cycle.

Context (sys : system).

(** The branch [path == '/api/scan'] of [do_GET]: the pair of the
    fields ['success'] and ['timestamp'] of the response. *)
Definition do_GET_scan : M (bool * string) :=
  pkg_result <- scan_installed_packages sys ;;
  proc_result <- scan_running_processes sys ;;
  now <- now_isoformat sys ;;
  ret (pkg_result && proc_result, now).


End Cycle.

(** * A concrete [julianday]

    SQLite's conversion of the time values of the forms [YYYY-MM-DD],
    [YYYY-MM-DD HH:MM], [YYYY-MM-DD HH:MM:SS] and [YYYY-MM-DD HH:MM:SS.SSS],
    with [T] or blanks between date and time: the forms that
    [datetime.isoformat] writes.  Any other text gives NULL here.  It
    instantiates the parameter [julianday] of the statistics wherever a
    statement is evaluated on concrete rows. *)

Module Sqlite.

Definition digit_val (a : ascii) : option Z :=
  if Py.isdigit_char a then Some (Z.of_nat (nat_of_ascii a) - 48)%Z else None.

(** Exactly [w] digits, then the rest of the text. *)
Fixpoint get_digits (w : nat) (acc : Z) (s : string) : option (Z * string) :=
  match w with
  | O => Some (acc, s)
  | S w' =>
      match s with
      | String a s' =>
          match digit_val a with
          | Some v => get_digits w' (10 * acc + v)%Z s'
          | None => None
          end
      | EmptyString => None
      end
  end.

(** [w] digits of a value in [lo..hi]. *)
Definition field (w : nat) (lo hi : Z) (s : string) : option (Z * string) :=
  match get_digits w 0 s with
  | Some (v, s') => if bool_decide (lo ≤ v ≤ hi)%Z then Some (v, s') else None
  | None => None
  end.

Definition expect (c : ascii) (s : string) : option string :=
  match s with
  | String a s' => if Ascii.eqb a c then Some s' else None
  | EmptyString => None
  end.

(** The digits of a fraction: numerator and denominator read so far. *)
Fixpoint fraction (num : Z) (den : positive) (s : string) : Z * positive * string :=
  match s with
  | String a s' =>
      match digit_val a with
      | Some v => fraction (10 * num + v)%Z (10 * den)%positive s'
      | None => (num, den, s)
      end
  | EmptyString => (num, den, s)
  end.

Fixpoint skip_separators (s : string) : string :=
  match s with
  | String a s' =>
      if Py.isspace a || Ascii.eqb a "T" then skip_separators s' else s
  | EmptyString => EmptyString
  end.

(** [HH:MM], [HH:MM:SS] or [HH:MM:SS.SSS] up to the end of the text:
    the time of day in milliseconds, seconds rounded to the nearest. *)
Definition parse_hms (s : string) : option Z :=
  '(h, s) ← field 2 0 24 s;
  s ← expect ":" s;
  '(m, s) ← field 2 0 59 s;
  match s with
  | EmptyString => Some (h * 3600000 + m * 60000)%Z
  | _ =>
      s ← expect ":" s;
      '(sec, s) ← field 2 0 59 s;
      match s with
      | EmptyString => Some (h * 3600000 + m * 60000 + sec * 1000)%Z
      | String "." (String a _ as s') =>
          if Py.isdigit_char a then
            let '(num, den, rest) := fraction 0 1 s' in
            match rest with
            | EmptyString =>
                let secs := (inject_Z sec + (num # den))%Q in
                Some (h * 3600000 + m * 60000
                      + Qfloor (secs * 1000 + (1 # 2))%Q)%Z
            | _ => None
            end
          else None
      | _ => None
      end
  end.

(** The Julian day of a date of the Gregorian calendar at midnight, in
    milliseconds. *)
Definition compute_jd (y m d : Z) : Z :=
  let '(y, m) := if bool_decide (m ≤ 2)%Z then (y - 1, m + 12)%Z else (y, m) in
  let a := Z.quot y 100 in
  let b := (2 - a + Z.quot a 4)%Z in
  let x1 := Z.quot (36525 * (y + 4716)) 100 in
  let x2 := Z.quot (306001 * (m + 1)) 10000 in
  ((x1 + x2 + d + b) * 86400000 - 131716800000)%Z.

Definition julianday (s : string) : option Q :=
  '(y, s) ← field 4 0 9999 s;
  s ← expect "-" s;
  '(m, s) ← field 2 1 12 s;
  s ← expect "-" s;
  '(d, s) ← field 2 1 31 s;
  match skip_separators s with
  | EmptyString => Some (compute_jd y m d # 86400000)
  | s' => ms ← parse_hms s'; Some ((compute_jd y m d + ms) # 86400000)
  end.

End Sqlite.

(** * Vocabulary of the statements *)

(** The world that an outcome leaves behind. *)
Definition outcome_world {A} (o : outcome A) : world :=
  match o with
  | Return _ w => w
  | Raise _ w => w
  end.

(** The executable paths that the first loop of [scan_running_processes]
    collects: one per entry of [/proc] that is a directory with a numeric
    name and a readable [exe] link. *)
Definition exe_paths (entries : list proc_entry) : list string :=
  omap (fun e => if pe_is_dir e && Py.isdigit (pe_name e)
                 then match pe_exe e with Ok p => Some p | Fail _ => None end
                 else None)
       entries.

(** The package that [pacman -Qo] names as the owner of a path: the
    fifth word of its output. *)
Definition owner (sys : system) (exe_path : string) : option string :=
  match pacman_Qo sys exe_path with
  | Ok out => Py.split_ws out !! 4%nat
  | Fail _ => None
  end.

(** A lookup whose failure the second loop skips. *)
Definition skippable (r : result string) : Prop :=
  match r with
  | Ok _ | Fail CalledProcessError | Fail IndexError => True
  | Fail _ => False
  end.

(** An entry of [/proc] that the first loop reads or skips: it is no
    process directory, or its [exe] link is read or fails with
    [OSError]. *)
Definition readable (e : proc_entry) : Prop :=
  if pe_is_dir e && Py.isdigit (pe_name e)
  then match pe_exe e with
       | Ok _ | Fail OSError => True
       | Fail _ => False
       end
  else True.

(** The rows that one pass appends for the packages [hits]. *)
Definition process_scan_events (now : string) (hits : list string) : list usage_event :=
  (fun n => UsageEvent n "process_scan" now) <$> hits.

(** The rows of an event list that belong to a package. *)
Definition events_of (name : string) (evs : list usage_event) : list usage_event :=
  filter (fun ev => package_name ev = name) evs.

(** The store after one pass of the second loop of
    [scan_running_processes] over processes owned by the packages [hits]:
    every hit is touched and gets a row. *)
Definition touched (now : string) (hits : list string) (d : database) : database :=
  Database (foldl (fun m n => alter (set_last_seen now) n m) (packages d) hits)
           (usage_events d ++ process_scan_events now hits).

(** The names that the lines of an inventory announce. *)
Definition inventory_names (lines : list string) : list string :=
  omap (fun line => if Py.startswith "Name" line
                    then match Py.split1 ":" line !! 1%nat with
                         | Some v => Some (Py.strip v)
                         | None => None
                         end
                    else None)
       lines.

(** The names of the snapshot that [pacman -Qi] printed. *)
Definition snapshot_names (sys : system) : list string :=
  match pacman_Qi sys with
  | Ok all_packages => inventory_names (Py.split "010" all_packages)
  | Fail _ => []
  end.

(** The record that the inventory loop hands to [_save_package] when it
    leaves [current_pkg]: none for the empty dictionary, and [KeyError]
    for a dictionary without a name. *)
Definition complete (current_pkg : gmap string string)
    : result (list (gmap string string)) :=
  if bool_decide (current_pkg ≠ ∅) then
    match current_pkg !! "name" with
    | Some _ => Ok [current_pkg]
    | None => Fail KeyError
    end
  else Ok [].

(** The records of an inventory, in the order in which the loop saves
    them, or the exception that the loop raises on the lines. *)
Fixpoint inventory_records (lines : list string) (current_pkg : gmap string string)
    : result (list (gmap string string)) :=
  match lines with
  | [] => complete current_pkg
  | line :: rest =>
      if Py.startswith "Name" line then
        match complete current_pkg with
        | Fail e => Fail e
        | Ok saved =>
            match field_value line with
            | Fail e => Fail e
            | Ok v =>
                match inventory_records rest {[ "name" := v ]} with
                | Fail e => Fail e
                | Ok records => Ok (saved ++ records)
                end
            end
        end
      else if Py.startswith "Description" line then
        match field_value line with
        | Fail e => Fail e
        | Ok v => inventory_records rest (<[ "description" := v ]> current_pkg)
        end
      else if Py.startswith "Install Date" line then
        match field_value line with
        | Fail e => Fail e
        | Ok v => inventory_records rest (<[ "install_date" := v ]> current_pkg)
        end
      else inventory_records rest current_pkg
  end.

(** The world after the upsert of one record. *)
Definition upsert_record (sys : system) (explicit_set : gset string)
    (w : world) (record : gmap string string) : world :=
  let name := default "" (record !! "name") in
  World (insert_or_replace_package name
           (dict_get record "description" "")
           (dict_get record "install_date" "")
           (bool_decide (name ∈ explicit_set))
           (isoformat (clock sys (ticks w))) (db w))
        (S (ticks w)).

(** The records of an inventory that carry the name [n]. *)
Definition records_of (n : string) (records : list (gmap string string))
    : list (gmap string string) :=
  filter (fun r => r !! "name" = Some n) records.

(** [kept names d d']: from [d] to [d'] no package row disappears, and
    the rows of the packages outside [names] are the same. *)
Definition kept (names : list string) (d d' : database) : Prop :=
  ∀ n, (is_Some (packages d !! n) → is_Some (packages d' !! n))
       ∧ (n ∉ names → packages d' !! n = packages d !! n).

(** The dust percentage as the specification words it:
    [min (min (daysUnused, 365) / 30.0 * 100, 100)]. *)
Definition dust_formula (days : Z) : Q :=
  Qmin (inject_Z (Z.min days 365) / 30 * 100) 100.

(** The order in which the specification lists two packages: more days
    unused first, and by name among equals. *)
Definition listed_before (e1 e2 : Stat.t) : Prop :=
  (Stat.days_unused e2 < Stat.days_unused e1)%Z
  ∨ (Stat.days_unused e1 = Stat.days_unused e2
     ∧ (Stat.name e1 ≤ Stat.name e2)%string).

(** A store on which the packages query computes a day count for every
    row: each [last_seen] is the sentinel or a time value. *)
Definition dated (julianday : string -> option Q) (now : Q) (d : database) : Prop :=
  map_Forall (fun _ p => is_Some (days_unused julianday now p)) (packages d).

(** * Sample data *)

Module Sample.

Definition t0 : datetime := DateTime 2024 3 1 12 0 0 0.

(** A machine where [pacman] is missing its database and [/proc] shows
    two shells and an editor. *)
Definition sys_two_shells : system :=
  System (fun _ => t0)
         (Fail CalledProcessError)
         (Fail CalledProcessError)
         (Ok [ProcEntry "101" true (Ok "/usr/bin/bash");
              ProcEntry "self" true (Ok "/usr/bin/python3");
              ProcEntry "102" true (Ok "/usr/bin/bash");
              ProcEntry "103" true (Fail OSError);
              ProcEntry "104" true (Ok "/usr/bin/vim")])
         (fun path =>
            if String.eqb path "/usr/bin/bash"
            then Ok "/usr/bin/bash is owned by bash 5.2.026-2"
            else if String.eqb path "/usr/bin/vim"
            then Ok "/usr/bin/vim is owned by vim 9.1.0-1"
            else Fail CalledProcessError).

(** A machine with three packages, the last one without metadata. *)
Definition sys_inventory : system :=
  System (fun _ => t0)
         (Ok "bash
vim
")
         (Ok "Name            : bash
Version         : 5.2.026-2
Description     : The GNU Bourne Again shell
Install Date    : Mon 01 Jan 2024 10:00:00
Name            : vim
Description     : Vi Improved
Name            : zlib
")
         (Ok [])
         (fun _ => Fail CalledProcessError).

Definition bash_row : package :=
  Package "The GNU Bourne Again shell" "2023" true "2024-01-01T00:00:00".

Definition db_bash : database := Database {[ "bash" := bash_row ]} [].

Definition db_old : database :=
  Database {[ "bash" := bash_row;
              "nano" := Package "Pico clone" "2022" true "2023-05-05T08:00:00" ]} [].

(** A store written by an earlier version, with the sentinel. *)
Definition db_never : database :=
  Database {[ "vim" := Package "Vi Improved" "2023" true "Never" ]} [].

(** [julianday ('now')] at noon of 1 March 2024. *)
Definition now : Q := 212576054400000 # 86400000.

Definition db_abc : database :=
  Database {[ "A" := Package "" "" true "2024-02-20T06:00:00";
              "B" := Package "" "" false "2024-02-20T09:30:00.250000";
              "C" := Package "" "" true "2024-02-25T12:00:00" ]} [].

Definition db_dust : database :=
  Database {[ "p15" := Package "" "" true "2024-02-15T12:00:00";
              "p30" := Package "" "" true "2024-01-31T12:00:00";
              "p31" := Package "" "" true "2024-01-30T12:00:00";
              "p29" := Package "" "" true "2024-02-01T12:00:00";
              "p400" := Package "" "" false "2023-01-26T12:00:00" ]} [].

(** A machine whose inventory has a line without its colon. *)
Definition sys_no_colon : system :=
  System (fun _ => t0)
         (Ok "bash")
         (Ok "Name            : bash
Description     The GNU Bourne Again shell
Name            : vim")
         (Ok [])
         (fun _ => Fail CalledProcessError).

(** A machine with the sample inventory and the sample processes. *)
Definition sys_full : system :=
  System (clock sys_inventory) (pacman_Qqe sys_inventory) (pacman_Qi sys_inventory)
         (proc_iterdir sys_two_shells) (pacman_Qo sys_two_shells).


End Sample.

(** * The port search *)

(** [find_free_port(start_port, max_attempts)].  [try_bind port] is what
    the block [with socket.socket (...) as s: s.bind (('localhost', port))]
    does for a port: it binds, or raises.  [OSError] moves on to the next
    port of [range(start_port, start_port + max_attempts)]; any other
    exception leaves the function. *)
Fixpoint find_free_port_loop (try_bind : Z -> result unit) (ports : list Z)
    : result (option Z) :=
  match ports with
  | [] => Ok None
  | port :: rest =>
      match try_bind port with
      | Ok _ => Ok (Some port)
      | Fail OSError => find_free_port_loop try_bind rest
      | Fail e => Fail e
      end
  end.

Definition find_free_port (try_bind : Z -> result unit) (start_port max_attempts : Z)
    : result (option Z) :=
  find_free_port_loop try_bind (seqZ start_port max_attempts).

(** * The filters of the page *)

(** The functions of the script of [HTML_TEMPLATE] that select and colour
    the entries that [/api/stats] delivers.  The numbers of the entries
    are the ones that Python serialised. *)
Module Js.

(** [filterPackagesList(packages, filter)] *)
Definition filterPackagesList (packages : list Stat.t) (filter : string) : list Stat.t :=
  if String.eqb filter "dusty" then
    List.filter (fun pkg => (30 <=? Stat.days_unused pkg)%Z
                            && (Stat.days_unused pkg <? 999)%Z) packages
  else if String.eqb filter "unused" then
    List.filter (fun pkg => (7 <=? Stat.days_unused pkg)%Z) packages
  else if String.eqb filter "safe" then
    List.filter (fun pkg => String.eqb (Stat.safety pkg) "safe") packages
  else packages.

(** [getDustClass(percentage)] *)
Definition getDustClass (percentage : Q) : string :=
  if Qle_bool percentage 25 then "dust-0-25"
  else if Qle_bool percentage 50 then "dust-25-50"
  else if Qle_bool percentage 75 then "dust-50-75"
  else "dust-75-100".

End Js.

(** * More vocabulary *)

(** The set that [scan_installed_packages] builds from the output of
    [pacman -Qqe]. *)
Definition explicit_set_of (explicit : string) : gset string :=
  list_to_set (Py.split "010" (Py.strip explicit)).

Global Instance readable_dec e : Decision (readable e).
Proof.
  unfold readable. destruct (pe_is_dir e && Py.isdigit (pe_name e)); [|apply _].
  destruct (pe_exe e) as [|[]]; apply _.
Defined.

Global Instance skippable_dec r : Decision (skippable r).
Proof. destruct r as [|[]]; apply _. Defined.

(** A store without the sentinel of the earlier versions. *)
Definition no_never (d : database) : Prop :=
  map_Forall (fun _ p => last_seen p ≠ "Never") (packages d).

(** A line that the inventory loop reads a field from. *)
Definition keyed (line : string) : bool :=
  Py.startswith "Name" line || Py.startswith "Description" line
  || Py.startswith "Install Date" line.

(** The colour band of an entry of so many days, in the words of the
    style sheet. *)
Definition dust_band (days : Z) : string :=
  if (days <=? 7)%Z then "dust-0-25"
  else if (days <=? 15)%Z then "dust-25-50"
  else if (days <=? 22)%Z then "dust-50-75"
  else "dust-75-100".

(** * Properties *)

(** ** The clock never writes the sentinel *)

Lemma digit_not_N (n : nat) : digit n ≠ "N"%char.
Proof.
  unfold digit. intros H.
  apply (f_equal nat_of_ascii) in H.
  rewrite nat_ascii_embedding in H.
  - change (nat_of_ascii "N") with 78%nat in H.
    pose proof (Nat.mod_upper_bound n 10). lia.
  - pose proof (Nat.mod_upper_bound n 10). lia.
Qed.

Lemma isoformat_head (d : datetime) :
  ∃ s, isoformat d = String (digit (year d / 10 / 10 / 10)) s.
Proof.
  unfold isoformat. cbn [digits]. unfold String.app. cbn [append].
  eexists. reflexivity.
Qed.

Lemma isoformat_not_Never (d : datetime) : isoformat d ≠ "Never".
Proof.
  destruct (isoformat_head d) as [s ->]. intros H.
  injection H as H _. by apply digit_not_N in H.
Qed.

(** ** The upsert *)

Section SavePackage.

Context (sys : system).

(** What [_save_package] does when the record has a name. *)
Lemma save_package_named pkg_info is_explicit w name :
  pkg_info !! "name" = Some name →
  _save_package sys pkg_info is_explicit w =
    Return tt
      (World (insert_or_replace_package name
                (dict_get pkg_info "description" "")
                (dict_get pkg_info "install_date" "")
                is_explicit (isoformat (clock sys (ticks w))) (db w))
             (S (ticks w))).
Proof.
  intros Hname. unfold _save_package, bind, now_isoformat, lift, dict_getitem, execute.
  by rewrite Hname.
Qed.

(** Without a name it raises before any statement runs. *)
Lemma save_package_unnamed pkg_info is_explicit w :
  pkg_info !! "name" = None →
  _save_package sys pkg_info is_explicit w = Raise KeyError (World (db w) (S (ticks w))).
Proof.
  intros Hname. unfold _save_package, bind, now_isoformat, lift, dict_getitem.
  by rewrite Hname.
Qed.

Lemma insert_or_replace_other name descr idate e now d other :
  other ≠ name →
  packages (insert_or_replace_package name descr idate e now d) !! other
  = packages d !! other.
Proof. intros Hne. simpl. by rewrite lookup_insert_ne. Qed.

Lemma insert_or_replace_events name descr idate e now d :
  usage_events (insert_or_replace_package name descr idate e now d) = usage_events d.
Proof. reflexivity. Qed.

End SavePackage.

(** C1.  An upsert of a package that the store already holds overwrites
    description, install date and explicit flag and keeps the stored
    [last_seen]; an upsert of a package that the store does not hold
    creates the row with [last_seen] set to the time read from the clock,
    which is never the text ["Never"]. *)
Theorem save_package_preserves_last_seen
    (sys : system) (pkg_info : gmap string string) (is_explicit : bool)
    (w : world) (name : string) :
  pkg_info !! "name" = Some name →
  ∃ w', _save_package sys pkg_info is_explicit w = Return tt w' ∧
    match packages (db w) !! name with
    | Some old =>
        packages (db w') !! name =
          Some (Package (dict_get pkg_info "description" "")
                        (dict_get pkg_info "install_date" "")
                        is_explicit (last_seen old))
    | None =>
        packages (db w') !! name =
          Some (Package (dict_get pkg_info "description" "")
                        (dict_get pkg_info "install_date" "")
                        is_explicit (isoformat (clock sys (ticks w))))
        ∧ isoformat (clock sys (ticks w)) ≠ "Never"
    end.
Proof.
  intros Hname. eexists. split; [by apply save_package_named|].
  cbn [db packages insert_or_replace_package].
  destruct (packages (db w) !! name) as [old|] eqn:Hold.
  - by rewrite lookup_insert_eq.
  - split; [by rewrite lookup_insert_eq | apply isoformat_not_Never].
Qed.

Lemma save_package_preserves_last_seen_witness :
  ∃ w', _save_package Sample.sys_inventory {[ "name" := "bash" ]} false
          (World Sample.db_bash 0) = Return tt w'
        ∧ packages (db w') !! "bash" = Some (Package "" "" false "2024-01-01T00:00:00").
Proof.
  assert (Hname : ({[ "name" := "bash" ]} : gmap string string) !! "name" = Some "bash")
    by (vm_compute; reflexivity).
  destruct (save_package_preserves_last_seen Sample.sys_inventory
              {[ "name" := "bash" ]} false (World Sample.db_bash 0) "bash" Hname)
    as (w' & Hrun & Hrow).
  exists w'. split; [exact Hrun | exact Hrow].
Defined.

(** The upsert of a record that has a name returns, and stores the empty
    text in the column of a description or an install date that the
    record lacks. *)
Lemma save_package_missing_fields
    (sys : system) (pkg_info : gmap string string) (is_explicit : bool)
    (w : world) (name : string) :
  pkg_info !! "name" = Some name →
  ∃ w' row, _save_package sys pkg_info is_explicit w = Return tt w' ∧
    packages (db w') !! name = Some row ∧
    description row = default "" (pkg_info !! "description") ∧
    install_date row = default "" (pkg_info !! "install_date").
Proof.
  intros Hname. eexists _, _. split; [by apply save_package_named|].
  cbn [db packages insert_or_replace_package]. by rewrite lookup_insert_eq.
Qed.

(** ** The process scan *)

Section Correlate.

Context (sys : system).

Lemma for_each_read_exe entries acc w :
  Forall readable entries →
  for_each read_exe entries acc w = Return (acc ++ exe_paths entries) w.
Proof.
  intros HF. revert acc. induction HF as [|e es He _ IH]; intros acc.
  - simpl. by rewrite app_nil_r.
  - cbn [for_each]. unfold bind, exe_paths. cbn [omap list_omap].
    unfold read_exe at 1. unfold readable in He.
    destruct (pe_is_dir e && Py.isdigit (pe_name e)).
    + unfold try_except, bind, lift, ret.
      destruct (pe_exe e) as [p|[]]; try done.
      * rewrite IH. by rewrite <- app_assoc.
      * simpl. apply IH.
    + unfold ret. apply IH.
Qed.

Lemma read_exe_db e acc w : db (outcome_world (read_exe e acc w)) = db w.
Proof.
  unfold read_exe. destruct (pe_is_dir e && Py.isdigit (pe_name e)); [|done].
  unfold try_except, bind, lift, ret.
  destruct (pe_exe e) as [p|x]; [done|]. by case_bool_decide.
Qed.

Lemma for_each_read_exe_db entries acc w :
  db (outcome_world (for_each read_exe entries acc w)) = db w.
Proof.
  revert acc w. induction entries as [|e es IH]; intros acc w; [done|].
  cbn [for_each]. unfold bind.
  pose proof (read_exe_db e acc w) as He.
  destruct (read_exe e acc w) as [ps w1|x w1]; simpl in He.
  - by rewrite IH.
  - done.
Qed.

(** One round of the second loop. *)
Lemma scan_process_hit now exe_path name w :
  owner sys exe_path = Some name →
  scan_process sys now exe_path tt w =
    Return tt (World (insert_usage_event name "process_scan" now
                        (update_last_seen now name (db w)))
                     (ticks w)).
Proof.
  unfold owner, scan_process, try_except, bind, lift, getitem, execute.
  destruct (pacman_Qo sys exe_path) as [out|x]; [|done].
  by intros ->.
Qed.

Lemma scan_process_miss now exe_path w :
  skippable (pacman_Qo sys exe_path) →
  owner sys exe_path = None →
  scan_process sys now exe_path tt w = Return tt w.
Proof.
  unfold owner, skippable, scan_process, try_except, bind, lift, getitem, execute, ret.
  destruct (pacman_Qo sys exe_path) as [out|[]]; try done.
  by intros _ ->.
Qed.

Lemma for_each_scan_process now processes w :
  Forall (fun p => skippable (pacman_Qo sys p)) processes →
  for_each (scan_process sys now) processes tt w =
    Return tt (World (touched now (omap (owner sys) processes) (db w)) (ticks w)).
Proof.
  intros HF. revert w. induction HF as [|p ps Hp _ IH]; intros w.
  - simpl. unfold ret, touched, process_scan_events. simpl.
    rewrite app_nil_r. by destruct w as [[]].
  - cbn [for_each]. unfold bind. cbn [omap list_omap].
    destruct (owner sys p) as [name|] eqn:Ho.
    + rewrite (scan_process_hit _ _ _ _ Ho), IH. f_equal.
      unfold touched, process_scan_events. simpl. by rewrite <- app_assoc.
    + rewrite (scan_process_miss _ _ _ Hp Ho). apply IH.
Qed.

Lemma scan_running_processes_true entries w :
  proc_iterdir sys = Ok entries →
  Forall readable entries →
  Forall (fun p => skippable (pacman_Qo sys p)) (exe_paths entries) →
  scan_running_processes sys w =
    Return true
      (World (touched (isoformat (clock sys (ticks w)))
                      (omap (owner sys) (exe_paths entries)) (db w))
             (S (ticks w))).
Proof.
  intros Hdir Hread Hskip.
  unfold scan_running_processes, try_except, bind at 1, lift. rewrite Hdir.
  unfold bind at 1. rewrite for_each_read_exe by done. simpl.
  unfold connect_commit, bind, now_isoformat.
  by rewrite for_each_scan_process.
Qed.


End Correlate.

Lemma set_last_seen_idemp now p :
  set_last_seen now (set_last_seen now p) = set_last_seen now p.
Proof. reflexivity. Qed.

Lemma touched_lookup now hits (m : gmap string package) n :
  foldl (fun m n => alter (set_last_seen now) n m) m hits !! n
  = if decide (n ∈ hits) then set_last_seen now <$> m !! n else m !! n.
Proof.
  revert m. induction hits as [|h hs IH]; intros m; [done|].
  cbn [foldl]. rewrite IH. rewrite lookup_alter.
  destruct (decide (h = n)) as [->|Hne].
  - rewrite (decide_True (P := n ∈ n :: hs)) by apply list_elem_of_here.
    destruct (decide (n ∈ hs)); [|done].
    by destruct (m !! n).
  - destruct (decide (n ∈ hs)) as [Hin|Hin].
    + by rewrite (decide_True (P := n ∈ h :: hs)) by (by apply list_elem_of_further).
    + rewrite (decide_False (P := n ∈ h :: hs)); [done|].
      rewrite elem_of_cons. intros [?|?]; congruence.
Qed.





(** C4, as the code has it.  When the owner that pacman names for a
    running process is not in the store, the round of the loop leaves the
    package rows as they are, appends the usage event all the same, and
    returns without raising. *)
Theorem scan_process_unknown_package
    (sys : system) (now exe_path name : string) (w : world) :
  owner sys exe_path = Some name →
  packages (db w) !! name = None →
  ∃ w', scan_process sys now exe_path tt w = Return tt w' ∧
    packages (db w') = packages (db w) ∧
    usage_events (db w') = usage_events (db w) ++ [UsageEvent name "process_scan" now].
Proof.
  intros Ho Hnone. eexists. split; [by apply scan_process_hit|].
  cbn [db packages usage_events insert_usage_event update_last_seen].
  split; [|reflexivity].
  apply map_eq. intros k. rewrite lookup_alter.
  destruct (decide (name = k)) as [<-|]; [by rewrite Hnone | done].
Qed.

Lemma scan_process_unknown_package_witness :
  ∃ w', scan_process Sample.sys_two_shells "2024-03-01T12:00:00" "/usr/bin/vim" tt
          (World Sample.db_bash 0) = Return tt w' ∧
    packages (db w') = packages Sample.db_bash ∧
    usage_events (db w') = [UsageEvent "vim" "process_scan" "2024-03-01T12:00:00"].
Proof.
  apply (scan_process_unknown_package Sample.sys_two_shells "2024-03-01T12:00:00"
           "/usr/bin/vim" "vim" (World Sample.db_bash 0)).
  - vm_compute. reflexivity.
  - vm_compute. reflexivity.
Defined.

(** C4 as stated fails: the event of a package that the store does not
    know is recorded, not dropped. *)
Lemma unknown_package_event_recorded :
  ∃ w', scan_running_processes Sample.sys_two_shells (World Sample.db_bash 0)
        = Return true w'
        ∧ packages (db w') !! "vim" = None
        ∧ events_of "vim" (usage_events (db w'))
          = [UsageEvent "vim" "process_scan" "2024-03-01T12:00:00"].
Proof.
  eexists. split; [vm_compute; reflexivity|].
  split; vm_compute; reflexivity.
Qed.

(** ** The scan cycle *)


(** A failed inventory query: the flag is false and nothing changes. *)
Lemma scan_installed_packages_upstream_failure (sys : system) (w : world) :
  pacman_Qqe sys = Fail CalledProcessError →
  scan_installed_packages sys w = Return false w.
Proof.
  intros H. unfold scan_installed_packages, try_except, bind, lift. by rewrite H.
Qed.

(** A cycle on a machine where pacman fails with [CalledProcessError]:
    the inventory scan returns [False], the process scan still runs and
    logs its three events, and the response says no success. *)
Lemma scan_cycle_upstream_failure_sample :
  ∃ w2,
    scan_running_processes Sample.sys_two_shells (World Sample.db_bash 0) = Return true w2 ∧
    do_GET_scan Sample.sys_two_shells (World Sample.db_bash 0) =
      Return (false, "2024-03-01T12:00:00") (World (db w2) (S (ticks w2))) ∧
    length (usage_events (db w2)) = 3%nat.
Proof.
  eexists. split; [vm_compute; reflexivity|].
  split; vm_compute; reflexivity.
Qed.

(** ** The inventory scan *)

Section Reconcile.

Context (sys : system).

Lemma kept_refl names d : kept names d d.
Proof. by intros n. Qed.

Lemma kept_trans names d1 d2 d3 :
  kept names d1 d2 → kept names d2 d3 → kept names d1 d3.
Proof.
  intros H12 H23 n. destruct (H12 n) as [Ha Hb], (H23 n) as [Hc Hd].
  split; [auto|]. intros Hn. by rewrite Hd, Hb.
Qed.

Lemma kept_mono names names' d d' :
  names ⊆ names' → kept names d d' → kept names' d d'.
Proof.
  intros Hsub H n. destruct (H n) as [Ha Hb]. split; [done|].
  intros Hn. apply Hb. intros Hin. by apply Hn, Hsub.
Qed.

Lemma kept_insert name descr idate e now d :
  kept [name] d (insert_or_replace_package name descr idate e now d).
Proof.
  intros n. cbn [packages insert_or_replace_package]. split.
  - intros Hn. destruct (decide (name = n)) as [->|Hne].
    + rewrite lookup_insert_eq. eauto.
    + by rewrite lookup_insert_ne.
  - intros Hn. rewrite lookup_insert_ne; [done|].
    intros ->. apply Hn, list_elem_of_here.
Qed.

Lemma save_package_kept pkg_info e w :
  kept (option_list (pkg_info !! "name")) (db w)
       (db (outcome_world (_save_package sys pkg_info e w))).
Proof.
  destruct (pkg_info !! "name") as [name|] eqn:Hname.
  - rewrite (save_package_named _ _ _ _ _ Hname). apply kept_insert.
  - rewrite (save_package_unnamed _ _ _ _ Hname). apply kept_refl.
Qed.

Lemma save_current_kept ex cur w :
  kept (option_list (cur !! "name")) (db w)
       (db (outcome_world (save_current sys ex cur w))).
Proof.
  unfold save_current. case_bool_decide; [|apply kept_refl].
  unfold bind, lift, dict_getitem.
  destruct (cur !! "name") as [name|] eqn:Hname; [|apply kept_refl].
  pose proof (save_package_kept cur (bool_decide (name ∈ ex)) w) as H1.
  by rewrite Hname in H1.
Qed.

(** One line of the inventory: the rows outside the record being read
    stay, and the name of the record read next is the old one or the
    one that the line announces. *)
Lemma scan_line_kept ex line cur w :
  kept (option_list (cur !! "name")) (db w)
       (db (outcome_world (scan_line sys ex line cur w)))
  ∧ ∀ cur' w', scan_line sys ex line cur w = Return cur' w' →
      ∀ m, cur' !! "name" = Some m →
           cur !! "name" = Some m ∨ m ∈ inventory_names [line].
Proof.
  unfold scan_line, inventory_names. cbn [omap list_omap].
  destruct (Py.startswith "Name" line).
  - pose proof (save_current_kept ex cur w) as Hk.
    unfold bind.
    destruct (save_current sys ex cur w) as [[] w1|x w1]; simpl in Hk;
      [|split; [exact Hk | done]].
    unfold lift, field_value, getitem, ret.
    destruct (Py.split1 ":" line !! 1%nat) as [v|]; simpl;
      [|split; [exact Hk | done]].
    split; [exact Hk|]. intros cur' w' [= <- <-] m.
    rewrite lookup_singleton_eq. intros [= <-]. right. apply list_elem_of_here.
  - destruct (Py.startswith "Description" line);
      [|destruct (Py.startswith "Install Date" line)].
    + unfold bind, lift, field_value, getitem, ret.
      destruct (Py.split1 ":" line !! 1%nat) as [v|]; simpl;
        (split; [apply kept_refl|]); [|done].
      intros cur' w' [= <- <-] m. rewrite lookup_insert_ne by done. auto.
    + unfold bind, lift, field_value, getitem, ret.
      destruct (Py.split1 ":" line !! 1%nat) as [v|]; simpl;
        (split; [apply kept_refl|]); [|done].
      intros cur' w' [= <- <-] m. rewrite lookup_insert_ne by done. auto.
    + unfold ret. simpl. split; [apply kept_refl|].
      intros cur' w' [= <- <-] m. auto.
Qed.

Lemma inventory_names_cons line lines :
  inventory_names (line :: lines) = inventory_names [line] ++ inventory_names lines.
Proof.
  unfold inventory_names. cbn [omap list_omap].
  by destruct (if Py.startswith "Name" line then _ else _).
Qed.

Lemma for_each_scan_line_kept ex lines cur w :
  kept (option_list (cur !! "name") ++ inventory_names lines) (db w)
       (db (outcome_world (for_each (scan_line sys ex) lines cur w)))
  ∧ ∀ cur' w', for_each (scan_line sys ex) lines cur w = Return cur' w' →
      ∀ m, cur' !! "name" = Some m →
           m ∈ option_list (cur !! "name") ++ inventory_names lines.
Proof.
  revert cur w. induction lines as [|line lines IH]; intros cur w.
  - cbn [for_each]. unfold ret. simpl. split; [apply kept_refl|].
    intros cur' w' [= <- <-] m ->. rewrite app_nil_r. apply list_elem_of_here.
  - cbn [for_each]. unfold bind. rewrite inventory_names_cons.
    destruct (scan_line_kept ex line cur w) as [Hk Hn].
    destruct (scan_line sys ex line cur w) as [cur1 w1|x w1]; simpl in Hk.
    + specialize (Hn cur1 w1 eq_refl).
      assert (Hsub : option_list (cur1 !! "name") ++ inventory_names lines
                     ⊆ option_list (cur !! "name")
                       ++ inventory_names [line] ++ inventory_names lines).
      { intros m. rewrite !elem_of_app.
        destruct (cur1 !! "name") as [m1|] eqn:H1; simpl.
        - rewrite list_elem_of_singleton. intros [->|?]; [|auto].
          destruct (Hn m1 eq_refl) as [->|?]; [|auto].
          left. apply list_elem_of_here.
        - intros [[]%elem_of_nil|?]; auto. }
      destruct (IH cur1 w1) as [Hk1 Hn1]. split.
      * eapply kept_trans.
        -- eapply kept_mono; [|exact Hk]. intros m Hm. apply elem_of_app. auto.
        -- eapply kept_mono; [exact Hsub | exact Hk1].
      * intros cur' w' Hret m Hm. apply Hsub. eauto.
    + simpl. split; [|done].
      eapply kept_mono; [|exact Hk]. intros m Hm. apply elem_of_app. auto.
Qed.

(** The whole scan, whether it returns or raises. *)
Lemma scan_installed_packages_kept w :
  kept (snapshot_names sys) (db w)
       (db (outcome_world (scan_installed_packages sys w))).
Proof.
  unfold scan_installed_packages, snapshot_names, try_except, bind at 1, lift.
  destruct (pacman_Qqe sys) as [explicit|x].
  2:{ case_bool_decide; apply kept_refl. }
  unfold bind at 1.
  destruct (pacman_Qi sys) as [all_packages|x].
  2:{ case_bool_decide; apply kept_refl. }
  set (ex := list_to_set _). set (lines := Py.split _ all_packages).
  unfold connect_commit, bind at 1.
  destruct (for_each_scan_line_kept ex lines ∅ w) as [Hk Hn].
  rewrite lookup_empty in Hk, Hn. simpl in Hk, Hn.
  destruct (for_each (scan_line sys ex) lines ∅ w) as [cur w1|x w1]; simpl in Hk.
  2:{ case_bool_decide; apply kept_refl. }
  specialize (Hn cur w1 eq_refl).
  pose proof (save_current_kept ex cur w1) as Hs.
  unfold bind.
  destruct (save_current sys ex cur w1) as [[] w2|x w2]; simpl in Hs.
  2:{ case_bool_decide; apply kept_refl. }
  unfold ret. simpl. eapply kept_trans; [exact Hk|].
  eapply kept_mono; [|exact Hs].
  intros m. destruct (cur !! "name") as [m1|]; simpl.
  - rewrite list_elem_of_singleton. intros ->. by apply Hn.
  - by intros ?%elem_of_nil.
Qed.

End Reconcile.

(** C9.  The inventory scan removes no package row, whether it returns
    or raises: a package of the store is still there afterwards, and when
    the snapshot does not name it, its row is what it was. *)
Theorem reconcile_never_removes
    (sys : system) (w : world) (name : string) (row : package) :
  packages (db w) !! name = Some row →
  is_Some (packages (db (outcome_world (scan_installed_packages sys w))) !! name)
  ∧ (name ∉ snapshot_names sys →
     packages (db (outcome_world (scan_installed_packages sys w))) !! name = Some row).
Proof.
  intros Hrow. destruct (scan_installed_packages_kept sys w name) as [Hsome Hsame].
  split.
  - apply Hsome. rewrite Hrow. eauto.
  - intros Hn. by rewrite Hsame.
Qed.

Lemma reconcile_never_removes_witness :
  scan_installed_packages Sample.sys_inventory (World Sample.db_old 0)
  = Return true (outcome_world (scan_installed_packages Sample.sys_inventory
                                  (World Sample.db_old 0)))
  ∧ packages (db (outcome_world (scan_installed_packages Sample.sys_inventory
                                   (World Sample.db_old 0)))) !! "nano"
    = Some (Package "Pico clone" "2022" true "2023-05-05T08:00:00").
Proof.
  split; [vm_compute; reflexivity|].
  apply (reconcile_never_removes Sample.sys_inventory (World Sample.db_old 0) "nano").
  - vm_compute. reflexivity.
  - assert (Hs : snapshot_names Sample.sys_inventory = ["bash"; "vim"; "zlib"])
      by (vm_compute; reflexivity).
    rewrite Hs, !elem_of_cons, elem_of_nil.
    intros [H|[H|[H|[]]]]; discriminate H.
Defined.

(** ** The statistics *)

Lemma null_lt_trichotomy a b : null_lt a b ∨ a = b ∨ null_lt b a.
Proof.
  destruct a as [x|], b as [y|]; simpl; auto.
  destruct (Z.lt_trichotomy x y) as [?|[->|?]]; auto.
Qed.

Lemma null_lt_trans a b c : null_lt a b → null_lt b c → null_lt a c.
Proof. destruct a, b, c; simpl; try done. lia. Qed.

Lemma null_lt_irrefl a : ¬ null_lt a a.
Proof. destruct a; simpl; [lia|tauto]. Qed.

Global Instance order_by_total : Total order_by.
Proof.
  intros [[n1 p1] d1] [[n2 p2] d2]. unfold order_by. simpl.
  destruct (null_lt_trichotomy d1 d2) as [?|[->|?]]; auto.
  destruct (total String.le n1 n2); auto.
Qed.

Global Instance order_by_trans : Transitive order_by.
Proof.
  intros [[n1 p1] d1] [[n2 p2] d2] [[n3 p3] d3]. unfold order_by. simpl.
  intros [H12|[-> H12]] [H23|[-> H23]]; eauto using null_lt_trans.
  right. split; [done|]. by etrans.
Qed.

(** Two rows that each may come before the other have the same day
    count and the same name. *)
Lemma order_by_antisym r1 r2 :
  order_by r1 r2 → order_by r2 r1 → r1.2 = r2.2 ∧ r1.1.1 = r2.1.1.
Proof.
  unfold order_by.
  intros [H12|[E12 H12]] [H21|[E21 H21]].
  - destruct (null_lt_irrefl r1.2). eauto using null_lt_trans.
  - rewrite E21 in H12. by destruct (null_lt_irrefl r1.2).
  - rewrite E12 in H21. by destruct (null_lt_irrefl r2.2).
  - split; [done|]. by apply (anti_symm String.le).
Qed.

Lemma mapM_result_Forall2 {A B} (f : A → result B) l ys :
  mapM_result f l = Ok ys → Forall2 (fun x y => f x = Ok y) l ys.
Proof.
  revert ys. induction l as [|x l IH]; intros ys; simpl.
  - intros [= <-]. constructor.
  - destruct (f x) as [y|] eqn:Hx; [|done].
    destruct (mapM_result f l) as [ys'|]; [|done].
    intros [= <-]. constructor; auto.
Qed.

Lemma mapM_result_Ok {A B} (f : A → result B) l :
  Forall (fun x => ∃ y, f x = Ok y) l → ∃ ys, mapM_result f l = Ok ys.
Proof.
  induction 1 as [|x l [y Hy] _ [ys IH]]; simpl; [by eexists|].
  rewrite Hy, IH. by eexists.
Qed.

Lemma package_stat_inv row e :
  package_stat row = Ok e →
  row.2 = Some (Stat.days_unused e) ∧
  row.1.1 = Stat.name e ∧
  Stat.explicit_install e = explicit_install row.1.2 ∧
  Stat.last_seen e = last_seen row.1.2 ∧
  Stat.dust_percentage e = dust_formula (Stat.days_unused e) ∧
  Stat.safety e = (if explicit_install row.1.2 && bool_decide (30 < Stat.days_unused e)%Z
                   then "safe" else "risky").
Proof.
  destruct row as [[n p] [dz|]]; simpl; [|done].
  intros [= <-]. simpl. done.
Qed.

Section StatsFacts.

Context (julianday : string → option Q).

Lemma select_packages_Permutation now d :
  select_packages julianday now d
  ≡ₚ (fun np => (np.1, np.2, days_unused julianday now np.2)) <$> map_to_list (packages d).
Proof. apply merge_sort_Permutation. Qed.

Lemma select_packages_sorted now d :
  StronglySorted order_by (select_packages julianday now d).
Proof. apply StronglySorted_merge_sort; apply _. Qed.

Lemma elem_of_select_packages now d n p dz :
  (n, p, dz) ∈ select_packages julianday now d
  ↔ packages d !! n = Some p ∧ dz = days_unused julianday now p.
Proof.
  rewrite select_packages_Permutation, list_elem_of_fmap. split.
  - intros ([n' p'] & [= -> -> ->] & Hin). simpl.
    by apply elem_of_map_to_list in Hin.
  - intros [Hn ->]. exists (n, p). split; [done|].
    by apply elem_of_map_to_list.
Qed.

(** The order of the rows does not depend on how the engine sorts: it
    is the only sorted arrangement of the rows of the table. *)
Lemma select_packages_unique now d rows :
  rows ≡ₚ (fun np => (np.1, np.2, days_unused julianday now np.2))
            <$> map_to_list (packages d) →
  StronglySorted order_by rows →
  rows = select_packages julianday now d.
Proof.
  intros Hperm Hsorted.
  apply (StronglySorted_unique_strong order_by); [|done| |].
  - intros [[n1 p1] d1] [[n2 p2] d2] H1 H2 H12 H21.
    destruct (order_by_antisym _ _ H12 H21) as [Hd Hn]. simpl in Hd, Hn. subst.
    rewrite Hperm in H1. apply elem_of_select_packages in H2 as [H2 ->].
    apply list_elem_of_fmap in H1 as ([n' p'] & [= -> -> _] & Hin).
    apply elem_of_map_to_list in Hin. simpl in *. congruence.
  - apply select_packages_sorted.
  - by rewrite select_packages_Permutation.
Qed.

(** On a dated store the call returns, and its entries are the images
    of the rows of the packages query. *)
Lemma get_package_stats_dated now1 now2 now3 d :
  dated julianday now1 d →
  ∃ pkgs,
    get_package_stats julianday now1 now2 now3 d =
      Ok (pkgs, Summary.Make (size (packages d))
                             (count_where (unused_week_where julianday now2) d)
                             (count_where (dusty_explicit_where julianday now3) d))
    ∧ Forall2 (fun row e => package_stat row = Ok e)
              (select_packages julianday now1 d) pkgs.
Proof.
  intros Hdated. unfold get_package_stats.
  destruct (mapM_result_Ok package_stat (select_packages julianday now1 d))
    as [pkgs Hpkgs].
  { apply Forall_forall. intros [[n p] dz] [Hn ->]%elem_of_select_packages.
    destruct (Hdated n p Hn) as [k Hk]. simpl. rewrite Hk. by eexists. }
  rewrite Hpkgs. exists pkgs. split; [done|]. by apply mapM_result_Forall2.
Qed.

(** An entry of the result comes from a package of the store. *)
Lemma get_package_stats_entry now1 now2 now3 d pkgs s e :
  get_package_stats julianday now1 now2 now3 d = Ok (pkgs, s) →
  e ∈ pkgs →
  ∃ p, packages d !! Stat.name e = Some p
       ∧ days_unused julianday now1 p = Some (Stat.days_unused e)
       ∧ package_stat (Stat.name e, p, Some (Stat.days_unused e)) = Ok e.
Proof.
  unfold get_package_stats.
  destruct (mapM_result package_stat _) as [ys|] eqn:Hys; [|done].
  intros [= <- <-] He. apply mapM_result_Forall2 in Hys.
  destruct (proj1 (list_elem_of_lookup _ _) He) as [i Hi].
  destruct (Forall2_lookup_r _ _ _ _ _ Hys Hi) as ([[n p] dz] & Hrow & Hstat).
  apply list_elem_of_lookup_2, elem_of_select_packages in Hrow as [Hn ->].
  destruct (package_stat_inv _ _ Hstat) as (Hd & Hname & _). simpl in Hd, Hname.
  subst n. exists p. rewrite Hd in Hstat. by rewrite Hd.
Qed.

(** A package of the store has an entry in the result. *)
Lemma get_package_stats_covers now1 now2 now3 d pkgs s n p :
  get_package_stats julianday now1 now2 now3 d = Ok (pkgs, s) →
  packages d !! n = Some p →
  ∃ e, e ∈ pkgs ∧ Stat.name e = n
       ∧ days_unused julianday now1 p = Some (Stat.days_unused e).
Proof.
  unfold get_package_stats.
  destruct (mapM_result package_stat _) as [ys|] eqn:Hys; [|done].
  intros [= <- <-] Hn. apply mapM_result_Forall2 in Hys.
  assert (Hrow : (n, p, days_unused julianday now1 p)
                 ∈ select_packages julianday now1 d)
    by by apply elem_of_select_packages.
  apply list_elem_of_lookup in Hrow as [i Hi].
  destruct (Forall2_lookup_l _ _ _ _ _ Hys Hi) as (e & He & Hstat).
  destruct (package_stat_inv _ _ Hstat) as (Hd & Hname & _). simpl in Hd, Hname.
  exists e. split; [by eapply list_elem_of_lookup_2|]. done.
Qed.

End StatsFacts.

Lemma dust_formula_saturates (days : Z) :
  (30 ≤ days)%Z → Qeq (dust_formula days) 100.
Proof.
  intros Hd. unfold dust_formula. apply Q.min_r.
  unfold Qle, Qdiv, Qmult, Qinv, inject_Z. simpl. lia.
Qed.

Lemma dust_formula_linear (days : Z) :
  (days ≤ 30)%Z → Qeq (dust_formula days) (inject_Z days * 100 / 30).
Proof.
  intros Hd. unfold dust_formula. rewrite Z.min_l by lia.
  rewrite Q.min_l.
  - unfold Qeq, Qdiv, Qmult, Qinv, inject_Z. simpl. lia.
  - unfold Qle, Qdiv, Qmult, Qinv, inject_Z. simpl. lia.
Qed.

(** C5.  On a dated store [get_package_stats] returns, and the entry of
    every package carries the day count of the query unclamped and a dust
    percentage equal to [min (min (days, 365) / 30 * 100, 100)]: 50 at 15
    days, 100 at 30 days, 100 at 400 days, where the entry still says 400
    days. *)
Theorem dust_percentage_clamped
    (julianday : string → option Q) (now1 now2 now3 : Q) (d : database) :
  dated julianday now1 d →
  ∃ pkgs s,
    get_package_stats julianday now1 now2 now3 d = Ok (pkgs, s) ∧
    ∀ n p, packages d !! n = Some p →
      ∃ e, e ∈ pkgs ∧ Stat.name e = n ∧
        days_unused julianday now1 p = Some (Stat.days_unused e) ∧
        Qeq (Stat.dust_percentage e) (dust_formula (Stat.days_unused e)) ∧
        (Stat.days_unused e = 15%Z → Qeq (Stat.dust_percentage e) 50) ∧
        (Stat.days_unused e = 30%Z → Qeq (Stat.dust_percentage e) 100) ∧
        (Stat.days_unused e = 400%Z → Qeq (Stat.dust_percentage e) 100) ∧
        ((30 ≤ Stat.days_unused e)%Z → Qeq (Stat.dust_percentage e) 100).
Proof.
  intros Hdated.
  destruct (get_package_stats_dated julianday now1 now2 now3 d Hdated)
    as (pkgs & Hget & _).
  eexists _, _. split; [exact Hget|]. intros n p Hn.
  destruct (get_package_stats_covers _ _ _ _ _ _ _ _ _ Hget Hn) as (e & He & Hname & Hd).
  exists e. split; [done|]. split; [done|]. split; [done|].
  destruct (get_package_stats_entry _ _ _ _ _ _ _ _ Hget He) as (p' & _ & _ & Hstat).
  destruct (package_stat_inv _ _ Hstat) as (_ & _ & _ & _ & Hdust & _).
  rewrite Hdust. split; [reflexivity|].
  repeat split.
  - intros ->. vm_compute. reflexivity.
  - intros ->. vm_compute. reflexivity.
  - intros ->. vm_compute. reflexivity.
  - apply dust_formula_saturates.
Qed.

Lemma sample_dated (d : database) :
  bool_decide (map_Forall (fun _ p => is_Some (days_unused Sqlite.julianday Sample.now p))
                          (packages d)) = true →
  dated Sqlite.julianday Sample.now d.
Proof. intros H. by apply bool_decide_eq_true in H. Qed.

Lemma dust_percentage_clamped_witness :
  ∃ pkgs s e,
    get_package_stats Sqlite.julianday Sample.now Sample.now Sample.now Sample.db_dust
    = Ok (pkgs, s) ∧
    e ∈ pkgs ∧ Stat.name e = "p400" ∧ Stat.days_unused e = 400%Z ∧
    Qeq (Stat.dust_percentage e) 100.
Proof.
  destruct (dust_percentage_clamped Sqlite.julianday Sample.now Sample.now Sample.now
              Sample.db_dust)
    as (pkgs & s & Hget & Hall).
  - apply sample_dated. vm_compute. reflexivity.
  - destruct (Hall "p400" (Package "" "" false "2023-01-26T12:00:00"))
      as (e & He & Hname & Hd & _ & _ & _ & H400 & _).
    + vm_compute. reflexivity.
    + assert (Hx : days_unused Sqlite.julianday Sample.now
                     (Package "" "" false "2023-01-26T12:00:00") = Some 400%Z)
        by (vm_compute; reflexivity).
      rewrite Hx in Hd. injection Hd as Hd. symmetry in Hd.
      exists pkgs, s, e. repeat split; auto.
Defined.

(** C6.  On a dated store the entry of every package is classified
    ["safe"] exactly when the package is explicitly installed and unused
    for more than 30 days, and ["risky"] otherwise: a dependency is risky
    whatever its day count, and so is any package at 30 days or less. *)
Theorem safety_classification
    (julianday : string → option Q) (now1 now2 now3 : Q) (d : database) :
  dated julianday now1 d →
  ∃ pkgs s,
    get_package_stats julianday now1 now2 now3 d = Ok (pkgs, s) ∧
    ∀ n p, packages d !! n = Some p →
      ∃ e, e ∈ pkgs ∧ Stat.name e = n ∧
        Stat.explicit_install e = explicit_install p ∧
        days_unused julianday now1 p = Some (Stat.days_unused e) ∧
        (Stat.safety e = "safe"
         ↔ explicit_install p = true ∧ (30 < Stat.days_unused e)%Z) ∧
        (Stat.safety e ≠ "safe" → Stat.safety e = "risky") ∧
        (explicit_install p = false → Stat.safety e = "risky") ∧
        ((Stat.days_unused e ≤ 30)%Z → Stat.safety e = "risky").
Proof.
  intros Hdated.
  destruct (get_package_stats_dated julianday now1 now2 now3 d Hdated)
    as (pkgs & Hget & _).
  eexists _, _. split; [exact Hget|]. intros n p Hn.
  destruct (get_package_stats_covers _ _ _ _ _ _ _ _ _ Hget Hn) as (e & He & Hname & Hd).
  exists e. split; [done|]. split; [done|].
  destruct (get_package_stats_entry _ _ _ _ _ _ _ _ Hget He) as (p' & Hn' & _ & Hstat).
  rewrite Hname, Hn in Hn'. injection Hn' as <-.
  destruct (package_stat_inv _ _ Hstat) as (_ & _ & Hex & _ & _ & Hsafe).
  simpl in Hex, Hsafe. rewrite Hsafe.
  split; [done|]. split; [done|].
  destruct (explicit_install p); simpl; [case_bool_decide|]; repeat split;
    try done; try lia; intros [? ?]; (done || lia).
Qed.

Lemma safety_classification_witness :
  ∃ pkgs s e31 e30 e400,
    get_package_stats Sqlite.julianday Sample.now Sample.now Sample.now Sample.db_dust
    = Ok (pkgs, s) ∧
    (e31 ∈ pkgs ∧ Stat.name e31 = "p31" ∧ Stat.safety e31 = "safe") ∧
    (e30 ∈ pkgs ∧ Stat.name e30 = "p30" ∧ Stat.safety e30 = "risky") ∧
    (e400 ∈ pkgs ∧ Stat.name e400 = "p400" ∧ Stat.safety e400 = "risky").
Proof.
  destruct (safety_classification Sqlite.julianday Sample.now Sample.now Sample.now
              Sample.db_dust)
    as (pkgs & s & Hget & Hall).
  - apply sample_dated. vm_compute. reflexivity.
  - destruct (Hall "p31" (Package "" "" true "2024-01-30T12:00:00"))
      as (e31 & He31 & Hn31 & _ & Hd31 & Hsafe31 & _); [vm_compute; reflexivity|].
    destruct (Hall "p30" (Package "" "" true "2024-01-31T12:00:00"))
      as (e30 & He30 & Hn30 & _ & Hd30 & _ & _ & _ & Hrisky30); [vm_compute; reflexivity|].
    destruct (Hall "p400" (Package "" "" false "2023-01-26T12:00:00"))
      as (e400 & He400 & Hn400 & _ & _ & _ & _ & Hrisky400 & _); [vm_compute; reflexivity|].
    assert (Hx31 : days_unused Sqlite.julianday Sample.now
                     (Package "" "" true "2024-01-30T12:00:00") = Some 31%Z)
      by (vm_compute; reflexivity).
    assert (Hx30 : days_unused Sqlite.julianday Sample.now
                     (Package "" "" true "2024-01-31T12:00:00") = Some 30%Z)
      by (vm_compute; reflexivity).
    rewrite Hx31 in Hd31. injection Hd31 as Hd31.
    rewrite Hx30 in Hd30. injection Hd30 as Hd30.
    exists pkgs, s, e31, e30, e400. split; [exact Hget|].
    split; [|split].
    + split; [done|]. split; [done|]. apply Hsafe31. split; [reflexivity|lia].
    + split; [done|]. split; [done|]. apply Hrisky30. lia.
    + split; [done|]. split; [done|]. by apply Hrisky400.
Defined.

Lemma StronglySorted_Forall2 {A B} (R : relation A) (R' : relation B)
    (T : A → B → Prop) l l' :
  (∀ x1 x2 y1 y2, T x1 y1 → T x2 y2 → R x1 x2 → R' y1 y2) →
  Forall2 T l l' → StronglySorted R l → StronglySorted R' l'.
Proof.
  intros HT HF. induction HF as [|x y l l' Hxy HF IH]; intros Hs.
  - constructor.
  - apply StronglySorted_inv in Hs as [Hs Hx]. constructor; [auto|].
    clear IH Hs. induction HF as [|x2 y2 l l' Hxy2 HF IH]; [constructor|].
    apply Forall_cons in Hx as [Hx2 Hx]. constructor; eauto.
Qed.

(** C7.  On a dated store the list of entries holds every package of
    the store once, by descending day count and, among equal counts, by
    ascending name. *)
Theorem list_packages_sorted
    (julianday : string → option Q) (now1 now2 now3 : Q) (d : database) :
  dated julianday now1 d →
  ∃ pkgs s,
    get_package_stats julianday now1 now2 now3 d = Ok (pkgs, s) ∧
    Stat.name <$> pkgs ≡ₚ (map_to_list (packages d)).*1 ∧
    (∀ n p, packages d !! n = Some p →
       ∃ e, e ∈ pkgs ∧ Stat.name e = n
            ∧ days_unused julianday now1 p = Some (Stat.days_unused e)) ∧
    StronglySorted listed_before pkgs.
Proof.
  intros Hdated.
  destruct (get_package_stats_dated julianday now1 now2 now3 d Hdated)
    as (pkgs & Hget & Hrows).
  eexists _, _. split; [exact Hget|]. split; [|split].
  - assert (Hnames : Stat.name <$> pkgs
                     = (fun r : stats_row => r.1.1) <$> select_packages julianday now1 d).
    { symmetry. apply list_eq_Forall2.
      apply Forall2_fmap. eapply Forall2_impl; [exact Hrows|].
      intros row e Hstat. by destruct (package_stat_inv _ _ Hstat) as (_ & -> & _). }
    rewrite Hnames, select_packages_Permutation, <- list_fmap_compose.
    by erewrite list_fmap_ext; [reflexivity|intros i [n p]].
  - intros n p Hn. eapply get_package_stats_covers; eauto.
  - eapply StronglySorted_Forall2; [|exact Hrows|apply select_packages_sorted].
    intros r1 r2 e1 e2 H1 H2 Hord. simpl in H1, H2.
    destruct (package_stat_inv _ _ H1) as (Hd1 & Hn1 & _).
    destruct (package_stat_inv _ _ H2) as (Hd2 & Hn2 & _).
    unfold order_by in Hord. rewrite Hd1, Hd2, Hn1, Hn2 in Hord.
    unfold listed_before. simpl in Hord.
    destruct Hord as [?|[[= ->] ?]]; auto.
Qed.

Lemma list_packages_sorted_witness :
  ∃ pkgs s,
    get_package_stats Sqlite.julianday Sample.now Sample.now Sample.now Sample.db_abc
    = Ok (pkgs, s) ∧
    Stat.name <$> pkgs = ["A"; "B"; "C"] ∧
    Stat.days_unused <$> pkgs = [10; 10; 5]%Z ∧
    StronglySorted listed_before pkgs.
Proof.
  destruct (list_packages_sorted Sqlite.julianday Sample.now Sample.now Sample.now
              Sample.db_abc)
    as (pkgs & s & Hget & _ & _ & Hsorted).
  - apply sample_dated. vm_compute. reflexivity.
  - assert (Hv : get_package_stats Sqlite.julianday Sample.now Sample.now Sample.now
                   Sample.db_abc
                 = Ok ([Stat.Make "A" "" "" true "2024-02-20T06:00:00" 10 (1000 # 30) "risky";
                        Stat.Make "B" "" "" false "2024-02-20T09:30:00.250000" 10
                                  (1000 # 30) "risky";
                        Stat.Make "C" "" "" true "2024-02-25T12:00:00" 5 (500 # 30) "risky"],
                       Summary.Make 3 2 0))
      by (vm_compute; reflexivity).
    rewrite Hv in Hget. injection Hget as <- <-.
    eexists _, _. split; [exact Hv|]. split; [reflexivity|]. split; [reflexivity|].
    exact Hsorted.
Defined.

(** C3, as the code has it.  A package whose [last_seen] is the sentinel
    is listed with 999 days unused, yet neither count of the summary
    includes it: the two counts are what they are without the package.
    The count of the week lacks the [CASE] of the packages query, so its
    day count is NULL and the comparison with 7 is not true. *)
Theorem never_seen_not_counted
    (julianday : string → option Q) (now1 now2 now3 : Q)
    (d : database) (name : string) (p : package) :
  julianday "Never" = None →
  packages d !! name = Some p →
  last_seen p = "Never" →
  days_unused julianday now1 p = Some 999%Z ∧
  ¬ unused_week_where julianday now2 (name, p) ∧
  ¬ dusty_explicit_where julianday now3 (name, p) ∧
  count_where (unused_week_where julianday now2) d
  = count_where (unused_week_where julianday now2)
                (Database (delete name (packages d)) (usage_events d)) ∧
  count_where (dusty_explicit_where julianday now3) d
  = count_where (dusty_explicit_where julianday now3)
                (Database (delete name (packages d)) (usage_events d)).
Proof.
  intros Hnull Hn Hseen.
  assert (Hweek : ¬ unused_week_where julianday now2 (name, p)).
  { unfold unused_week_where, sql_where, days_since. simpl.
    rewrite Hseen, Hnull. simpl. done. }
  assert (Hdusty : ¬ dusty_explicit_where julianday now3 (name, p)).
  { unfold dusty_explicit_where, sql_where, days_since. simpl.
    rewrite Hseen, Hnull. simpl. by destruct (explicit_install p). }
  split; [|split; [done|split; [done|split]]].
  - unfold days_unused. by rewrite decide_True.
  - unfold count_where. cbn [packages]. rewrite map_filter_delete_not; [done|].
    intros p' Hp'. rewrite Hn in Hp'. by injection Hp' as <-.
  - unfold count_where. cbn [packages]. rewrite map_filter_delete_not; [done|].
    intros p' Hp'. rewrite Hn in Hp'. by injection Hp' as <-.
Qed.

Lemma never_seen_not_counted_witness :
  days_unused Sqlite.julianday Sample.now (Package "Vi Improved" "2023" true "Never")
  = Some 999%Z
  ∧ count_where (unused_week_where Sqlite.julianday Sample.now) Sample.db_never = 0%nat
  ∧ count_where (dusty_explicit_where Sqlite.julianday Sample.now) Sample.db_never = 0%nat.
Proof.
  destruct (never_seen_not_counted Sqlite.julianday Sample.now Sample.now Sample.now
              Sample.db_never "vim" (Package "Vi Improved" "2023" true "Never"))
    as (Hdays & _ & _ & Hweek & Hdusty).
  - vm_compute. reflexivity.
  - vm_compute. reflexivity.
  - reflexivity.
  - split; [exact Hdays|]. rewrite Hweek, Hdusty. split; vm_compute; reflexivity.
Defined.

(** The statistics of a store that holds one package never seen: the
    entry says 999 days, the count of the week says nobody. *)
Lemma never_seen_stats :
  get_package_stats Sqlite.julianday Sample.now Sample.now Sample.now Sample.db_never
  = Ok ([Stat.Make "vim" "Vi Improved" "2023" true "Never" 999 100 "safe"],
        Summary.Make 1 0 0).
Proof. vm_compute. reflexivity. Qed.

(** ** The records of an inventory *)

Section Records.

Context (sys : system) (ex : gset string).

Lemma save_current_complete cur saved w :
  complete cur = Ok saved →
  save_current sys ex cur w = Return tt (foldl (upsert_record sys ex) w saved).
Proof.
  unfold complete, save_current. case_bool_decide.
  - unfold bind, lift, dict_getitem.
    destruct (cur !! "name") as [name|] eqn:Hname; [|done].
    intros [= <-]. rewrite (save_package_named _ _ _ _ _ Hname).
    cbn [foldl]. unfold upsert_record. by rewrite Hname.
  - by intros [= <-].
Qed.

Lemma complete_named cur saved :
  complete cur = Ok saved → Forall (fun r => is_Some (r !! "name")) saved.
Proof.
  unfold complete. case_bool_decide.
  - destruct (cur !! "name") eqn:Hname; [|done]. intros [= <-].
    constructor; [by rewrite Hname|constructor].
  - intros [= <-]. constructor.
Qed.

(** On lines that make records, the loop and the save that follows it
    upsert the records one after the other. *)
Lemma for_each_scan_line_records lines cur records w :
  inventory_records lines cur = Ok records →
  (cur' <- for_each (scan_line sys ex) lines cur ;; save_current sys ex cur') w
  = Return tt (foldl (upsert_record sys ex) w records).
Proof.
  revert cur records w. induction lines as [|line rest IH]; intros cur records w.
  - cbn [inventory_records for_each]. intros Hrec. unfold bind, ret.
    by apply save_current_complete.
  - cbn [inventory_records for_each]. unfold scan_line, bind in *.
    destruct (Py.startswith "Name" line).
    + destruct (complete cur) as [saved|] eqn:Hsaved; [|done].
      rewrite (save_current_complete _ _ _ Hsaved).
      unfold lift, ret. destruct (field_value line) as [v|]; [|done].
      destruct (inventory_records rest _) as [rs|] eqn:Hrs; [|done].
      intros [= <-]. rewrite foldl_app. by apply IH.
    + destruct (Py.startswith "Description" line);
        [|destruct (Py.startswith "Install Date" line)].
      * unfold lift, ret. destruct (field_value line) as [v|]; [|done]. apply IH.
      * unfold lift, ret. destruct (field_value line) as [v|]; [|done]. apply IH.
      * unfold ret. apply IH.
Qed.

Lemma inventory_records_named lines cur records :
  inventory_records lines cur = Ok records →
  Forall (fun r => is_Some (r !! "name")) records.
Proof.
  revert cur records. induction lines as [|line rest IH]; intros cur records.
  - apply complete_named.
  - cbn [inventory_records]. destruct (Py.startswith "Name" line).
    + destruct (complete cur) as [saved|] eqn:Hsaved; [|done].
      destruct (field_value line) as [v|]; [|done].
      destruct (inventory_records rest _) as [rs|] eqn:Hrs; [|done].
      intros [= <-]. apply Forall_app. split; [by eapply complete_named | by eapply IH].
    + destruct (Py.startswith "Description" line);
        [|destruct (Py.startswith "Install Date" line)].
      * destruct (field_value line) as [v|]; [|done]. apply IH.
      * destruct (field_value line) as [v|]; [|done]. apply IH.
      * apply IH.
Qed.

(** The last record of a name decides the metadata of its row. *)
Lemma upsert_records_last records w n r :
  Forall (fun r => is_Some (r !! "name")) records →
  last (records_of n records) = Some r →
  ∃ row, packages (db (foldl (upsert_record sys ex) w records)) !! n = Some row
         ∧ description row = dict_get r "description" ""
         ∧ install_date row = dict_get r "install_date" ""
         ∧ explicit_install row = bool_decide (n ∈ ex).
Proof.
  unfold records_of.
  induction records as [|x records IH] using rev_ind; [done|].
  rewrite Forall_app, Forall_singleton, filter_app, foldl_app.
  intros [Hnamed [m Hm]]. cbn [foldl]. unfold upsert_record at 1. rewrite Hm.
  cbn [default db packages insert_or_replace_package].
  destruct (decide (m = n)) as [->|Hne].
  - rewrite filter_cons_True by done. rewrite filter_nil, last_snoc.
    intros [= <-]. rewrite lookup_insert_eq. by eexists.
  - rewrite filter_cons_False by congruence. rewrite filter_nil, app_nil_r.
    intros Hlast. rewrite lookup_insert_ne by done. by apply IH.
Qed.

End Records.

(** C10.  When pacman answers and its lines make records, the scan
    returns [True] after upserting every record, and the row of every
    name of the snapshot carries the metadata of the last record of that
    name, with the empty text for a description or an install date that
    the record lacks. *)
Theorem reconcile_missing_fields
    (sys : system) (w : world) (explicit all_packages : string)
    (records : list (gmap string string)) :
  pacman_Qqe sys = Ok explicit →
  pacman_Qi sys = Ok all_packages →
  inventory_records (Py.split "010" all_packages) ∅ = Ok records →
  ∃ w', scan_installed_packages sys w = Return true w' ∧
    ∀ n r, last (records_of n records) = Some r →
      ∃ row, packages (db w') !! n = Some row ∧
        description row = default "" (r !! "description") ∧
        install_date row = default "" (r !! "install_date") ∧
        match r !! "description" with
        | None => description row = ""
        | Some v => description row = v
        end ∧
        match r !! "install_date" with
        | None => install_date row = ""
        | Some v => install_date row = v
        end.
Proof.
  intros Hqqe Hqi Hrec.
  pose proof (for_each_scan_line_records sys
                (list_to_set (Py.split "010" (Py.strip explicit)))
                _ _ _ w Hrec) as Hloop.
  eexists. split.
  - unfold scan_installed_packages, try_except, bind at 1, lift. rewrite Hqqe.
    unfold bind at 1. rewrite Hqi. unfold connect_commit.
    unfold bind in Hloop |- *.
    destruct (for_each _ _ ∅ w) as [cur w1|x w1]; [|done].
    rewrite Hloop. reflexivity.
  - intros n r Hlast.
    destruct (upsert_records_last sys
                (list_to_set (Py.split "010" (Py.strip explicit))) records w n r
                (inventory_records_named _ _ _ Hrec) Hlast)
      as (row & Hrow & Hd & Hi & _).
    exists row. split; [exact Hrow|]. rewrite Hd, Hi. unfold dict_get.
    destruct (r !! "description"), (r !! "install_date"); done.
Qed.

Lemma reconcile_missing_fields_witness :
  ∃ w', scan_installed_packages Sample.sys_inventory (World Sample.db_bash 0)
        = Return true w' ∧
    (∃ row, packages (db w') !! "zlib" = Some row
            ∧ description row = "" ∧ install_date row = "") ∧
    (∃ row, packages (db w') !! "vim" = Some row
            ∧ description row = "Vi Improved" ∧ install_date row = "").
Proof.
  destruct (reconcile_missing_fields Sample.sys_inventory (World Sample.db_bash 0)
              "bash
vim
"
              (match pacman_Qi Sample.sys_inventory with Ok s => s | Fail _ => "" end)
              [ {[ "name" := "bash";
                   "description" := "The GNU Bourne Again shell";
                   "install_date" := "Mon 01 Jan 2024 10:00:00" ]};
                {[ "name" := "vim"; "description" := "Vi Improved" ]};
                {[ "name" := "zlib" ]} ])
    as (w' & Hrun & Hrows).
  - reflexivity.
  - reflexivity.
  - vm_compute. reflexivity.
  - exists w'. split; [exact Hrun|]. split.
    + destruct (Hrows "zlib" {[ "name" := "zlib" ]}) as (row & Hrow & _ & _ & Hd & Hi).
      { vm_compute. reflexivity. }
      exists row. split; [exact Hrow|]. split; [exact Hd | exact Hi].
    + destruct (Hrows "vim" {[ "name" := "vim"; "description" := "Vi Improved" ]})
        as (row & Hrow & _ & _ & Hd & Hi).
      { vm_compute. reflexivity. }
      exists row. split; [exact Hrow|]. split; [exact Hd | exact Hi].
Defined.

(** ** A run of the inventory scan *)

(** The sample inventory has a record without install date and a record
    without any metadata: the scan returns [True], both packages are
    stored with empty text in the missing columns, and the package that
    the store already held keeps its [last_seen]. *)
Lemma scan_inventory_sample :
  ∃ w', scan_installed_packages Sample.sys_inventory (World Sample.db_bash 0)
        = Return true w'
    ∧ packages (db w') !! "bash"
      = Some (Package "The GNU Bourne Again shell" "Mon 01 Jan 2024 10:00:00" true
                      "2024-01-01T00:00:00")
    ∧ packages (db w') !! "vim"
      = Some (Package "Vi Improved" "" true "2024-03-01T12:00:00")
    ∧ packages (db w') !! "zlib"
      = Some (Package "" "" false "2024-03-01T12:00:00")
    ∧ usage_events (db w') = [].
Proof.
  eexists. split; [vm_compute; reflexivity|].
  repeat split; vm_compute; reflexivity.
Qed.

(** * Further properties *)

(** ** The inventory scan as a whole *)

Section ReconcileCases.

Context (sys : system).

Lemma complete_Fail cur e : complete cur = Fail e → e = KeyError.
Proof.
  unfold complete. case_bool_decide; [|done].
  destruct (cur !! "name"); [done|]. by intros [= <-].
Qed.

Lemma field_value_Fail line e : field_value line = Fail e → e = IndexError.
Proof.
  unfold field_value, getitem. destruct (_ !! _); [done|]. by intros [= <-].
Qed.

Lemma inventory_records_Fail lines cur e :
  inventory_records lines cur = Fail e → e = KeyError ∨ e = IndexError.
Proof.
  revert cur. induction lines as [|line rest IH]; intros cur.
  - cbn [inventory_records]. intros ?%complete_Fail. auto.
  - cbn [inventory_records]. destruct (Py.startswith "Name" line).
    + destruct (complete cur) eqn:Hc; [|intros [= <-]; apply complete_Fail in Hc; auto].
      destruct (field_value line) eqn:Hf;
        [|intros [= <-]; apply field_value_Fail in Hf; auto].
      destruct (inventory_records rest _) eqn:Hr; [done|].
      intros [= <-]. eauto.
    + destruct (Py.startswith "Description" line);
        [|destruct (Py.startswith "Install Date" line)].
      * destruct (field_value line) eqn:Hf;
          [apply IH|intros [= <-]; apply field_value_Fail in Hf; auto].
      * destruct (field_value line) eqn:Hf;
          [apply IH|intros [= <-]; apply field_value_Fail in Hf; auto].
      * apply IH.
Qed.

Lemma save_current_Fail ex cur e w :
  complete cur = Fail e → save_current sys ex cur w = Raise e w.
Proof.
  unfold complete, save_current. case_bool_decide; [|done].
  unfold bind, lift, dict_getitem. destruct (cur !! "name"); [done|].
  by intros [= <-].
Qed.

(** On lines that make no records, the loop or the save after it raises
    what the reading of the lines raises. *)
Lemma for_each_scan_line_Fail ex lines cur e w :
  inventory_records lines cur = Fail e →
  ∃ w', (cur' <- for_each (scan_line sys ex) lines cur ;; save_current sys ex cur') w
        = Raise e w'.
Proof.
  revert cur w. induction lines as [|line rest IH]; intros cur w.
  - cbn [inventory_records for_each]. intros Hc. unfold bind, ret.
    rewrite (save_current_Fail _ _ _ _ Hc). eauto.
  - cbn [inventory_records for_each]. unfold scan_line, bind in *.
    destruct (Py.startswith "Name" line).
    + destruct (complete cur) as [saved|] eqn:Hsaved.
      2:{ intros [= <-]. rewrite (save_current_Fail _ _ _ _ Hsaved). eauto. }
      rewrite (save_current_complete _ _ _ _ _ Hsaved).
      unfold lift, ret. destruct (field_value line) as [v|]; [|intros [= <-]; eauto].
      destruct (inventory_records rest _) as [rs|] eqn:Hrs; [done|].
      intros [= <-]. by apply IH.
    + destruct (Py.startswith "Description" line);
        [|destruct (Py.startswith "Install Date" line)].
      * unfold lift, ret. destruct (field_value line) as [v|];
          [apply IH|intros [= <-]; eauto].
      * unfold lift, ret. destruct (field_value line) as [v|];
          [apply IH|intros [= <-]; eauto].
      * unfold ret. apply IH.
Qed.

(** The outcomes of [scan_installed_packages], by what pacman answers and
    what its lines say. *)
Lemma scan_installed_packages_cases w :
  match pacman_Qqe sys with
  | Fail e =>
      scan_installed_packages sys w
      = if bool_decide (e = CalledProcessError) then Return false w else Raise e w
  | Ok explicit =>
      match pacman_Qi sys with
      | Fail e =>
          scan_installed_packages sys w
          = if bool_decide (e = CalledProcessError) then Return false w else Raise e w
      | Ok all_packages =>
          match inventory_records (Py.split "010" all_packages) ∅ with
          | Ok records =>
              scan_installed_packages sys w
              = Return true
                  (foldl (upsert_record sys (explicit_set_of explicit)) w records)
          | Fail e =>
              (e = KeyError ∨ e = IndexError) ∧
              ∃ t, scan_installed_packages sys w = Raise e (World (db w) t)
          end
      end
  end.
Proof.
  destruct (pacman_Qqe sys) as [explicit|e] eqn:Hqqe.
  2:{ unfold scan_installed_packages, try_except, bind, lift. rewrite Hqqe.
      by case_bool_decide. }
  destruct (pacman_Qi sys) as [all_packages|e] eqn:Hqi.
  2:{ unfold scan_installed_packages, try_except, bind, lift. rewrite Hqqe, Hqi.
      by case_bool_decide. }
  unfold scan_installed_packages, try_except, bind at 1, lift. rewrite Hqqe.
  unfold bind at 1. rewrite Hqi.
  unfold connect_commit, explicit_set_of.
  destruct (inventory_records _ ∅) as [records|e] eqn:Hrec.
  - pose proof (for_each_scan_line_records sys
                  (list_to_set (Py.split "010" (Py.strip explicit))) _ _ _ w Hrec)
      as Hloop.
    unfold bind in Hloop |- *.
    destruct (for_each _ _ ∅ w) as [cur w1|x w1]; [|done].
    by rewrite Hloop.
  - destruct (for_each_scan_line_Fail
                (list_to_set (Py.split "010" (Py.strip explicit))) _ _ _ w Hrec)
      as [w' Hloop].
    apply inventory_records_Fail in Hrec. split; [done|].
    unfold bind in Hloop |- *.
    destruct (for_each _ _ ∅ w) as [cur w1|x w1].
    + rewrite Hloop. simpl.
      rewrite bool_decide_eq_false_2 by (destruct Hrec; congruence). eauto.
    + injection Hloop as -> ->. simpl.
      rewrite bool_decide_eq_false_2 by (destruct Hrec; congruence). eauto.
Qed.

Lemma upsert_records_events ex records w :
  usage_events (db (foldl (upsert_record sys ex) w records)) = usage_events (db w).
Proof.
  revert w. induction records as [|r rs IH]; intros w; [done|].
  cbn [foldl]. by rewrite IH.
Qed.

Lemma upsert_records_seen ex records w n p :
  packages (db w) !! n = Some p →
  ∃ p', packages (db (foldl (upsert_record sys ex) w records)) !! n = Some p'
        ∧ last_seen p' = last_seen p.
Proof.
  revert w p. induction records as [|r rs IH]; intros w p Hn; [by eexists|].
  cbn [foldl].
  destruct (decide (default "" (r !! "name") = n)) as [Heq|Hne].
  - edestruct (IH (upsert_record sys ex w r)) as (p' & Hp' & Hseen).
    { unfold upsert_record. cbn [db packages insert_or_replace_package].
      rewrite Heq, Hn. apply lookup_insert_eq. }
    exists p'. split; [done|]. by rewrite Hseen.
  - apply IH. unfold upsert_record. cbn [db packages insert_or_replace_package].
    by rewrite lookup_insert_ne.
Qed.

Lemma upsert_records_other ex records w n :
  records_of n records = [] →
  Forall (fun r => is_Some (r !! "name")) records →
  packages (db (foldl (upsert_record sys ex) w records)) !! n = packages (db w) !! n.
Proof.
  unfold records_of. revert w. induction records as [|r rs IH]; intros w Hnone Hnamed; [done|].
  apply Forall_cons in Hnamed as [[m Hm] Hnamed].
  rewrite filter_cons in Hnone.
  destruct (decide (r !! "name" = Some n)) as [|Hne]; [done|].
  cbn [foldl]. rewrite IH by done.
  unfold upsert_record. cbn [db packages insert_or_replace_package].
  rewrite Hm. cbn [default]. rewrite lookup_insert_ne; [done|].
  intros Heq. simpl in Heq. apply Hne. by rewrite Hm, Heq.
Qed.

End ReconcileCases.

Lemma inventory_records_nameless lines cur :
  cur ≠ ∅ → cur !! "name" = None → ∃ e, inventory_records lines cur = Fail e.
Proof.
  revert cur. induction lines as [|line rest IH]; intros cur Hne Hnone.
  - cbn [inventory_records]. unfold complete.
    rewrite bool_decide_eq_true_2, Hnone by done. eauto.
  - cbn [inventory_records]. destruct (Py.startswith "Name" line).
    + unfold complete. rewrite bool_decide_eq_true_2, Hnone by done. eauto.
    + destruct (Py.startswith "Description" line);
        [|destruct (Py.startswith "Install Date" line)].
      * destruct (field_value line) as [v|]; [|eauto].
        apply IH; [apply insert_non_empty|by rewrite lookup_insert_ne].
      * destruct (field_value line) as [v|]; [|eauto].
        apply IH; [apply insert_non_empty|by rewrite lookup_insert_ne].
      * by apply IH.
Qed.

(** The records of an inventory carry the names that its [Name] lines
    announce, in their order, after the name of the record being read. *)
Lemma inventory_records_names lines cur records :
  inventory_records lines cur = Ok records →
  omap (fun r => r !! "name") records
  = (if bool_decide (cur ≠ ∅) then option_list (cur !! "name") else [])
    ++ inventory_names lines.
Proof.
  revert cur records. induction lines as [|line rest IH]; intros cur records.
  - cbn [inventory_records]. unfold complete, inventory_names.
    case_bool_decide; [|intros [= <-]; done].
    destruct (cur !! "name") as [m|] eqn:Hm; [|done].
    intros [= <-]. simpl. by rewrite Hm.
  - cbn [inventory_records]. rewrite inventory_names_cons.
    unfold inventory_names at 1. cbn [omap list_omap].
    destruct (Py.startswith "Name" line).
    + destruct (complete cur) as [saved|] eqn:Hsaved; [|done].
      unfold field_value, getitem.
      destruct (Py.split1 ":" line !! 1%nat) as [v|]; [|done].
      destruct (inventory_records rest _) as [rs|] eqn:Hrs; [|done].
      intros [= <-]. rewrite omap_app, (IH _ _ Hrs).
      rewrite bool_decide_eq_true_2 by apply insert_non_empty.
      rewrite lookup_singleton_eq. simpl. f_equal.
      revert Hsaved. unfold complete. case_bool_decide; [|by intros [= <-]].
      destruct (cur !! "name") as [m|] eqn:Hm; [|done].
      intros [= <-]. simpl. by rewrite Hm.
    + assert (Hstep : ∀ k v rs,
                k ≠ "name" →
                inventory_records rest (<[k := v]> cur) = Ok rs →
                omap (fun r => r !! "name") rs
                = (if bool_decide (cur ≠ ∅) then option_list (cur !! "name") else [])
                  ++ [] ++ inventory_names rest).
      { intros k v rs Hk Hrs. rewrite (IH _ _ Hrs).
        rewrite bool_decide_eq_true_2 by apply insert_non_empty.
        rewrite lookup_insert_ne by done. simpl.
        case_bool_decide as Hcur; [done|].
        subst cur.
        destruct (inventory_records_nameless rest (<[k := v]> ∅)) as [e He].
        - apply insert_non_empty.
        - by rewrite lookup_insert_ne.
        - congruence. }
      destruct (Py.startswith "Description" line);
        [|destruct (Py.startswith "Install Date" line)].
      * destruct (field_value line) as [v|]; [|done]. by apply Hstep.
      * destruct (field_value line) as [v|]; [|done]. by apply Hstep.
      * simpl. apply IH.
Qed.

Lemma inventory_records_snapshot lines records n :
  inventory_records lines ∅ = Ok records →
  n ∈ inventory_names lines ↔ records_of n records ≠ [].
Proof.
  intros Hrec. pose proof (inventory_records_names _ _ _ Hrec) as Hnames.
  rewrite bool_decide_eq_false_2 in Hnames by (by intros []). simpl in Hnames.
  rewrite <- Hnames, list_elem_of_omap. unfold records_of. split.
  - intros (r & Hr & Hn) Hnil.
    assert (Hin : r ∈ filter (fun r => r !! "name" = Some n) records)
      by by apply list_elem_of_filter.
    rewrite Hnil in Hin. by apply elem_of_nil in Hin.
  - intros Hne. destruct (filter _ records) as [|r l] eqn:Hf; [done|].
    assert (Hin : r ∈ filter (fun r => r !! "name" = Some n) records)
      by (rewrite Hf; apply list_elem_of_here).
    apply list_elem_of_filter in Hin as [Hn Hr]. eauto.
Qed.

Lemma inventory_records_no_colon lines cur line :
  line ∈ lines → keyed line = true → Py.split1 ":" line !! 1%nat = None →
  ∃ e, inventory_records lines cur = Fail e.
Proof.
  intros Hin Hkeyed Hcolon. revert cur.
  induction lines as [|l rest IH]; intros cur; [by apply elem_of_nil in Hin|].
  apply elem_of_cons in Hin as [<-|Hin].
  - cbn [inventory_records]. unfold keyed in Hkeyed.
    assert (Hf : field_value line = Fail IndexError)
      by (unfold field_value, getitem; by rewrite Hcolon).
    rewrite Hf.
    destruct (Py.startswith "Name" line); [destruct (complete cur); eauto|].
    destruct (Py.startswith "Description" line); [eauto|].
    destruct (Py.startswith "Install Date" line); [eauto|done].
  - specialize (IH Hin). cbn [inventory_records].
    destruct (Py.startswith "Name" l).
    + destruct (complete cur); [|eauto]. destruct (field_value l); [|eauto].
      destruct (IH {[ "name" := a0 ]}) as [e ->]. eauto.
    + destruct (Py.startswith "Description" l);
        [|destruct (Py.startswith "Install Date" l)].
      * destruct (field_value l); [apply IH|eauto].
      * destruct (field_value l); [apply IH|eauto].
      * apply IH.
Qed.



(** X3.  The inventory scan never writes the event log. *)
Theorem reconcile_keeps_events (sys : system) (w : world) :
  usage_events (db (outcome_world (scan_installed_packages sys w)))
  = usage_events (db w).
Proof.
  pose proof (scan_installed_packages_cases sys w) as Hc.
  destruct (pacman_Qqe sys) as [explicit|e].
  - destruct (pacman_Qi sys) as [all_packages|e].
    + destruct (inventory_records _ ∅) as [records|e].
      * rewrite Hc. simpl. apply upsert_records_events.
      * destruct Hc as (_ & t & ->). done.
    + rewrite Hc. by case_bool_decide.
  - rewrite Hc. by case_bool_decide.
Qed.

(** X4.  The inventory scan never changes the [last_seen] of a package
    that the store holds, whatever the snapshot says and however the scan
    ends. *)
Theorem reconcile_preserves_last_seen
    (sys : system) (w : world) (n : string) (p : package) :
  packages (db w) !! n = Some p →
  ∃ p', packages (db (outcome_world (scan_installed_packages sys w))) !! n = Some p'
        ∧ last_seen p' = last_seen p.
Proof.
  intros Hn. pose proof (scan_installed_packages_cases sys w) as Hc.
  destruct (pacman_Qqe sys) as [explicit|e].
  - destruct (pacman_Qi sys) as [all_packages|e].
    + destruct (inventory_records _ ∅) as [records|e].
      * rewrite Hc. simpl. by apply upsert_records_seen.
      * destruct Hc as (_ & t & ->). simpl. eauto.
    + rewrite Hc. case_bool_decide; simpl; eauto.
  - rewrite Hc. case_bool_decide; simpl; eauto.
Qed.

Lemma reconcile_preserves_last_seen_witness :
  ∃ p', packages (db (outcome_world (scan_installed_packages Sample.sys_inventory
                                       (World Sample.db_bash 0)))) !! "bash" = Some p'
        ∧ last_seen p' = "2024-01-01T00:00:00".
Proof.
  apply (reconcile_preserves_last_seen Sample.sys_inventory (World Sample.db_bash 0)
           "bash" Sample.bash_row).
  vm_compute. reflexivity.
Defined.

(** X5.  Reconciling the same snapshot a second time changes nothing:
    after a scan that returned [True], a scan of the same pacman output
    returns [True] again and leaves the database as the first scan left
    it, although the clock has moved on. *)
Theorem reconcile_idempotent (sys : system) (w w1 : world) :
  scan_installed_packages sys w = Return true w1 →
  ∃ w2, scan_installed_packages sys w1 = Return true w2 ∧ db w2 = db w1.
Proof.
  intros H1.
  pose proof (scan_installed_packages_cases sys w) as Hc.
  pose proof (scan_installed_packages_cases sys w1) as Hc1.
  destruct (pacman_Qqe sys) as [explicit|e];
    [|rewrite Hc in H1; by case_bool_decide].
  destruct (pacman_Qi sys) as [all_packages|e];
    [|rewrite Hc in H1; by case_bool_decide].
  destruct (inventory_records _ ∅) as [records|e] eqn:Hrec;
    [|destruct Hc as (_ & t & Hc); by rewrite Hc in H1].
  rewrite Hc in H1. injection H1 as <-.
  eexists. split; [exact Hc1|].
  set (ex := explicit_set_of explicit).
  set (w1 := foldl (upsert_record sys ex) w records).
  pose proof (inventory_records_named _ _ _ Hrec) as Hnamed.
  assert (Hpk : packages (db (foldl (upsert_record sys ex) w1 records))
                = packages (db w1)).
  { apply map_eq. intros n.
    destruct (last (records_of n records)) as [r|] eqn:Hlast.
    - destruct (upsert_records_last sys ex records w n r Hnamed Hlast)
        as (row1 & Hrow1 & Hd1 & Hi1 & He1).
      destruct (upsert_records_last sys ex records w1 n r Hnamed Hlast)
        as (row2 & Hrow2 & Hd2 & Hi2 & He2).
      destruct (upsert_records_seen sys ex records w1 n row1 Hrow1)
        as (row2' & Hrow2' & Hseen).
      rewrite Hrow2 in Hrow2'. injection Hrow2' as <-.
      fold w1 in Hrow1. rewrite Hrow1, Hrow2. f_equal.
      destruct row1, row2. simpl in *. congruence.
    - apply last_None in Hlast. by apply upsert_records_other. }
  pose proof (upsert_records_events sys ex records w1) as Hev.
  destruct (db (foldl (upsert_record sys ex) w1 records)), (db w1).
  simpl in *. by subst.
Qed.

Lemma reconcile_idempotent_witness :
  ∃ w1 w2,
    scan_installed_packages Sample.sys_inventory (World Sample.db_bash 0) = Return true w1
    ∧ scan_installed_packages Sample.sys_inventory w1 = Return true w2
    ∧ db w2 = db w1 ∧ ticks w1 = 3%nat ∧ ticks w2 = 6%nat.
Proof.
  assert (H1 : scan_installed_packages Sample.sys_inventory (World Sample.db_bash 0)
               = Return true (outcome_world (scan_installed_packages
                                Sample.sys_inventory (World Sample.db_bash 0))))
    by (vm_compute; reflexivity).
  destruct (reconcile_idempotent _ _ _ H1) as (w2 & H2 & Hdb).
  eexists _, w2. split; [exact H1|]. split; [exact H2|]. split; [exact Hdb|].
  split; [vm_compute; reflexivity|].
  assert (Hw2 : Return true w2
                = Return true (outcome_world
                    (scan_installed_packages Sample.sys_inventory
                       (outcome_world (scan_installed_packages
                          Sample.sys_inventory (World Sample.db_bash 0))))))
    by (rewrite <- H2; vm_compute; reflexivity).
  injection Hw2 as ->. vm_compute. reflexivity.
Defined.

(** X6.  After a scan that returned [True], every package that the
    snapshot names is in the store, and it is marked as explicitly
    installed exactly when its name is one of the lines of the output of
    [pacman -Qqe]. *)
Theorem reconcile_explicit_flag
    (sys : system) (w w' : world) (explicit n : string) :
  scan_installed_packages sys w = Return true w' →
  pacman_Qqe sys = Ok explicit →
  n ∈ snapshot_names sys →
  ∃ row, packages (db w') !! n = Some row
         ∧ (explicit_install row = true ↔ n ∈ Py.split "010" (Py.strip explicit)).
Proof.
  intros Hrun Hqqe Hn.
  pose proof (scan_installed_packages_cases sys w) as Hc.
  unfold snapshot_names in Hn. rewrite Hqqe in Hc.
  destruct (pacman_Qi sys) as [all_packages|e]; [|by apply elem_of_nil in Hn].
  destruct (inventory_records _ ∅) as [records|e] eqn:Hrec;
    [|destruct Hc as (_ & t & Hc); by rewrite Hc in Hrun].
  rewrite Hc in Hrun. injection Hrun as <-.
  apply (inventory_records_snapshot _ _ _ Hrec), last_is_Some in Hn as [r Hlast].
  destruct (upsert_records_last sys (explicit_set_of explicit) records w n r
              (inventory_records_named _ _ _ Hrec) Hlast)
    as (row & Hrow & _ & _ & He).
  exists row. split; [exact Hrow|]. rewrite He, bool_decide_eq_true.
  unfold explicit_set_of. apply elem_of_list_to_set.
Qed.

Lemma reconcile_explicit_flag_witness :
  ∃ w' vim zlib,
    scan_installed_packages Sample.sys_inventory (World Sample.db_bash 0) = Return true w'
    ∧ packages (db w') !! "vim" = Some vim ∧ explicit_install vim = true
    ∧ packages (db w') !! "zlib" = Some zlib ∧ explicit_install zlib = false.
Proof.
  assert (H1 : scan_installed_packages Sample.sys_inventory (World Sample.db_bash 0)
               = Return true (outcome_world (scan_installed_packages
                                Sample.sys_inventory (World Sample.db_bash 0))))
    by (vm_compute; reflexivity).
  assert (Hs : snapshot_names Sample.sys_inventory = ["bash"; "vim"; "zlib"])
    by (vm_compute; reflexivity).
  assert (Hl : Py.split "010" (Py.strip "bash
vim
") = ["bash"; "vim"]) by (vm_compute; reflexivity).
  destruct (reconcile_explicit_flag _ _ _ "bash
vim
" "vim" H1 eq_refl) as (vim & Hvim & Hevim).
  { rewrite Hs. apply list_elem_of_further, list_elem_of_here. }
  destruct (reconcile_explicit_flag _ _ _ "bash
vim
" "zlib" H1 eq_refl) as (zlib & Hzlib & Hezlib).
  { rewrite Hs. do 2 apply list_elem_of_further. apply list_elem_of_here. }
  rewrite Hl in Hevim, Hezlib.
  eexists _, vim, zlib. split; [exact H1|]. split; [exact Hvim|]. split.
  - apply Hevim. apply list_elem_of_further, list_elem_of_here.
  - split; [exact Hzlib|]. destruct (explicit_install zlib); [|done].
    destruct Hezlib as [Hin _]. specialize (Hin eq_refl).
    rewrite !elem_of_cons, elem_of_nil in Hin. destruct Hin as [?|[?|[]]]; done.
Defined.

(** X7.  A line of the inventory that starts with [Name], [Description]
    or [Install Date] and has no colon makes the scan raise [IndexError]
    (or [KeyError], when a record without a name is met first); the
    exception is not caught and nothing of the snapshot is committed. *)
Theorem reconcile_missing_colon
    (sys : system) (w : world) (explicit all_packages line : string) :
  pacman_Qqe sys = Ok explicit →
  pacman_Qi sys = Ok all_packages →
  line ∈ Py.split "010" all_packages →
  keyed line = true →
  Py.split1 ":" line !! 1%nat = None →
  ∃ e w', scan_installed_packages sys w = Raise e w'
          ∧ (e = IndexError ∨ e = KeyError) ∧ db w' = db w.
Proof.
  intros Hqqe Hqi Hin Hkeyed Hcolon.
  pose proof (scan_installed_packages_cases sys w) as Hc.
  rewrite Hqqe, Hqi in Hc.
  destruct (inventory_records_no_colon _ ∅ _ Hin Hkeyed Hcolon) as [e He].
  rewrite He in Hc. destruct Hc as (Hcls & t & ->).
  eexists _, _. split; [reflexivity|]. split; [tauto|done].
Qed.

Lemma reconcile_missing_colon_witness :
  ∃ w', scan_installed_packages Sample.sys_no_colon (World Sample.db_bash 0)
        = Raise IndexError w' ∧ db w' = Sample.db_bash.
Proof.
  destruct (reconcile_missing_colon Sample.sys_no_colon (World Sample.db_bash 0) "bash"
              (match pacman_Qi Sample.sys_no_colon with Ok s => s | Fail _ => "" end)
              "Description     The GNU Bourne Again shell" eq_refl eq_refl)
    as (e & w' & Hrun & _ & Hdb).
  - assert (Hl : Py.split "010"
                   (match pacman_Qi Sample.sys_no_colon with Ok s => s | Fail _ => "" end)
                 = ["Name            : bash";
                    "Description     The GNU Bourne Again shell";
                    "Name            : vim"]) by (vm_compute; reflexivity).
    rewrite Hl. apply list_elem_of_further, list_elem_of_here.
  - vm_compute. reflexivity.
  - vm_compute. reflexivity.
  - assert (He : Raise (A := bool) e w'
                 = Raise IndexError (outcome_world (scan_installed_packages
                      Sample.sys_no_colon (World Sample.db_bash 0)))).
    { rewrite <- Hrun. vm_compute. reflexivity. }
    injection He as -> Hw. exists w'. split; [exact Hrun | exact Hdb].
Defined.

(** ** The process scan as a whole *)

Section CorrelateCases.

Context (sys : system).

Lemma read_exe_not_readable e acc w :
  ¬ readable e → ∃ x w', read_exe e acc w = Raise x w'.
Proof.
  unfold readable, read_exe.
  destruct (pe_is_dir e && Py.isdigit (pe_name e)); [|by intros []].
  unfold try_except, bind, lift.
  destruct (pe_exe e) as [p|[]]; try (by intros []); intros _; simpl; eauto.
Qed.

Lemma for_each_read_exe_not_readable entries acc w :
  ¬ Forall readable entries →
  ∃ x w', for_each read_exe entries acc w = Raise x w'.
Proof.
  revert acc w. induction entries as [|e es IH]; intros acc w Hnot.
  - destruct Hnot. constructor.
  - cbn [for_each]. unfold bind.
    destruct (decide (readable e)) as [He|He].
    + destruct (read_exe e acc w) as [ps w1|x w1].
      * apply IH. intros Hes. apply Hnot. by constructor.
      * eauto.
    + destruct (read_exe_not_readable e acc w He) as (x & w' & ->). eauto.
Qed.

Lemma scan_process_not_skippable now exe_path w :
  ¬ skippable (pacman_Qo sys exe_path) →
  ∃ x, scan_process sys now exe_path tt w = Raise x w.
Proof.
  unfold skippable, scan_process, try_except, bind, lift.
  destruct (pacman_Qo sys exe_path) as [out|[]]; try (by intros []);
    intros _; simpl; eauto.
Qed.

Lemma for_each_scan_process_not_skippable now processes w :
  ¬ Forall (fun p => skippable (pacman_Qo sys p)) processes →
  ∃ x w', for_each (scan_process sys now) processes tt w = Raise x w'.
Proof.
  revert w. induction processes as [|p ps IH]; intros w Hnot.
  - destruct Hnot. constructor.
  - cbn [for_each]. unfold bind.
    destruct (decide (skippable (pacman_Qo sys p))) as [Hp|Hp].
    + destruct (scan_process sys now p tt w) as [[] w1|x w1].
      * apply IH. intros Hps. apply Hnot. by constructor.
      * eauto.
    + destruct (scan_process_not_skippable now p w Hp) as [x ->]. eauto.
Qed.

(** The outcomes of [scan_running_processes]: it returns [True] with the
    hits touched and logged, or [False] with the database as it was. *)
Lemma scan_running_processes_cases w :
  (∃ entries,
     proc_iterdir sys = Ok entries ∧ Forall readable entries
     ∧ Forall (fun p => skippable (pacman_Qo sys p)) (exe_paths entries)
     ∧ scan_running_processes sys w
       = Return true
           (World (touched (isoformat (clock sys (ticks w)))
                           (omap (owner sys) (exe_paths entries)) (db w))
                  (S (ticks w))))
  ∨ (¬ (∃ entries,
          proc_iterdir sys = Ok entries ∧ Forall readable entries
          ∧ Forall (fun p => skippable (pacman_Qo sys p)) (exe_paths entries))
     ∧ ∃ t, scan_running_processes sys w = Return false (World (db w) t)).
Proof.
  destruct (proc_iterdir sys) as [entries|x] eqn:Hdir.
  2:{ right. split; [by intros (? & ? & _)|].
      unfold scan_running_processes, try_except, bind, lift. rewrite Hdir.
      exists (ticks w). by destruct w. }
  destruct (decide (Forall readable entries)) as [Hread|Hread].
  2:{ right. split; [intros (? & [= <-] & ? & _); done|].
      unfold scan_running_processes, try_except, bind at 1, lift. rewrite Hdir.
      unfold bind at 1.
      pose proof (for_each_read_exe_db entries [] w) as Hdb.
      destruct (for_each_read_exe_not_readable entries [] w Hread) as (x & w' & Hx).
      rewrite Hx in Hdb |- *. simpl in Hdb |- *. exists (ticks w').
      unfold ret. f_equal. destruct w'. simpl in *. by subst. }
  destruct (decide (Forall (fun p => skippable (pacman_Qo sys p)) (exe_paths entries)))
    as [Hskip|Hskip].
  - left. exists entries. repeat split; try done.
    by apply scan_running_processes_true.
  - right. split; [intros (? & [= <-] & _ & ?); done|].
    unfold scan_running_processes, try_except, bind at 1, lift. rewrite Hdir.
    unfold bind at 1. rewrite for_each_read_exe by done. simpl.
    unfold connect_commit, bind, now_isoformat.
    destruct (for_each_scan_process_not_skippable
                (isoformat (clock sys (ticks w))) (exe_paths entries)
                (World (db w) (S (ticks w))) Hskip) as (x & w' & ->).
    simpl. eauto.
Qed.

End CorrelateCases.

Lemma scan_running_processes_rows (sys : system) (w : world) (n : string) :
  match packages (db w) !! n with
  | None =>
      packages (db (outcome_world (scan_running_processes sys w))) !! n = None
  | Some p =>
      packages (db (outcome_world (scan_running_processes sys w))) !! n = Some p
      ∨ packages (db (outcome_world (scan_running_processes sys w))) !! n
        = Some (set_last_seen (isoformat (clock sys (ticks w))) p)
  end.
Proof.
  destruct (scan_running_processes_cases sys w)
    as [(entries & _ & _ & _ & ->)|(_ & t & ->)].
  - cbn [outcome_world db touched packages]. rewrite touched_lookup.
    destruct (packages (db w) !! n) as [p|].
    + destruct (decide (n ∈ _)); auto.
    + by destruct (decide (n ∈ _)).
  - cbn [outcome_world db]. destruct (packages (db w) !! n); auto.
Qed.

(** X8.  The process scan, however it ends, adds and removes no package
    row and changes no metadata: a row stays as it is or gets the time of
    the pass as its [last_seen]; and what the log held stays in front,
    followed only by rows of type ["process_scan"] stamped with that
    time. *)
Theorem correlate_frame (sys : system) (w : world) (n : string) :
  match packages (db w) !! n with
  | None =>
      packages (db (outcome_world (scan_running_processes sys w))) !! n = None
  | Some p =>
      packages (db (outcome_world (scan_running_processes sys w))) !! n = Some p
      ∨ packages (db (outcome_world (scan_running_processes sys w))) !! n
        = Some (set_last_seen (isoformat (clock sys (ticks w))) p)
  end
  ∧ ∃ new_rows,
      usage_events (db (outcome_world (scan_running_processes sys w)))
      = usage_events (db w) ++ new_rows
      ∧ Forall (fun ev => event_type ev = "process_scan"
                          ∧ timestamp ev = isoformat (clock sys (ticks w))) new_rows.
Proof.
  split; [apply scan_running_processes_rows|].
  destruct (scan_running_processes_cases sys w)
    as [(entries & _ & _ & _ & ->)|(_ & t & ->)].
  - cbn [outcome_world db touched usage_events].
    eexists. split; [reflexivity|].
    unfold process_scan_events. apply Forall_fmap, Forall_true. by intros.
  - cbn [outcome_world db].
    exists []. split; [by rewrite app_nil_r|constructor].
Qed.


Lemma no_never_upsert sys ex w r :
  no_never (db w) → no_never (db (upsert_record sys ex w r)).
Proof.
  unfold no_never, upsert_record. cbn [db packages insert_or_replace_package].
  intros Hw. apply map_Forall_insert_2; [|done]. simpl.
  destruct (packages (db w) !! _) as [old|] eqn:Hold.
  - by apply (Hw _ _ Hold).
  - apply isoformat_not_Never.
Qed.

(** X10.  Neither scan ever writes the sentinel ["Never"]: on a store
    that has none, each scan leaves a store that has none, however it
    ends. *)
Theorem scans_never_write_never (sys : system) (w : world) :
  no_never (db w) →
  no_never (db (outcome_world (scan_installed_packages sys w)))
  ∧ no_never (db (outcome_world (scan_running_processes sys w))).
Proof.
  intros Hw. split.
  - pose proof (scan_installed_packages_cases sys w) as Hc.
    destruct (pacman_Qqe sys) as [explicit|e].
    + destruct (pacman_Qi sys) as [all_packages|e].
      * destruct (inventory_records _ ∅) as [records|e].
        -- rewrite Hc. simpl. clear Hc. revert w Hw.
           induction records as [|r rs IH]; intros w Hw; [done|].
           cbn [foldl]. by apply IH, no_never_upsert.
        -- by destruct Hc as (_ & t & ->).
      * rewrite Hc. by case_bool_decide.
    + rewrite Hc. by case_bool_decide.
  - intros n p' Hn.
    pose proof (scan_running_processes_rows sys w n) as H.
    rewrite Hn in H. destruct (packages (db w) !! n) as [p|] eqn:Hp; [|done].
    destruct H as [[= ->]|[= ->]]; [by apply (Hw _ _ Hp)|].
    apply isoformat_not_Never.
Qed.

Lemma scans_never_write_never_witness :
  no_never (db (outcome_world (scan_installed_packages Sample.sys_inventory
                                 (World Sample.db_bash 0))))
  ∧ no_never (db (outcome_world (scan_running_processes Sample.sys_inventory
                                   (World Sample.db_bash 0)))).
Proof.
  apply (scans_never_write_never Sample.sys_inventory (World Sample.db_bash 0)).
  apply (bool_decide_unpack _). vm_compute. exact I.
Defined.

(** ** The statistics, continued *)

Lemma mapM_result_Fail {A B} (f : A → result B) l e :
  mapM_result f l = Fail e → ∃ x, x ∈ l ∧ f x = Fail e.
Proof.
  induction l as [|x l IH]; simpl; [done|].
  destruct (f x) as [y|e'] eqn:Hx.
  - destruct (mapM_result f l) as [ys|e'']; [done|].
    intros [= <-]. destruct IH as (x' & Hin & Hx'); [done|].
    exists x'. split; [by apply list_elem_of_further|done].
  - intros [= <-]. exists x. split; [apply list_elem_of_here|done].
Qed.

Lemma package_stat_Fail row e :
  package_stat row = Fail e → e = TypeError ∧ row.2 = None.
Proof. destruct row as [[n p] [dz|]]; simpl; [done|]. by intros [= <-]. Qed.

(** X11.  [get_package_stats] returns exactly on a store where every
    [last_seen] is the sentinel or a time value; one row with any other
    text makes the whole call raise [TypeError], from [min] on [None]. *)
Theorem stats_raise_iff
    (julianday : string → option Q) (now1 now2 now3 : Q) (d : database) :
  (dated julianday now1 d
   ↔ ∃ r, get_package_stats julianday now1 now2 now3 d = Ok r)
  ∧ (¬ dated julianday now1 d
     ↔ get_package_stats julianday now1 now2 now3 d = Fail TypeError).
Proof.
  assert (Hok : (∃ r, get_package_stats julianday now1 now2 now3 d = Ok r)
                → dated julianday now1 d).
  { intros [[pkgs s] Hget] n p Hn.
    destruct (get_package_stats_covers _ _ _ _ _ _ _ _ _ Hget Hn) as (e & _ & _ & ->).
    eauto. }
  assert (Hfail : ∀ e, get_package_stats julianday now1 now2 now3 d = Fail e
                       → e = TypeError).
  { intros e. unfold get_package_stats.
    destruct (mapM_result package_stat _) as [ys|e'] eqn:Hys; [done|].
    intros [= <-]. apply mapM_result_Fail in Hys as (row & _ & Hrow).
    by apply package_stat_Fail in Hrow as [-> _]. }
  split; [split; [|done]|split].
  - intros Hdated.
    destruct (get_package_stats_dated julianday now1 now2 now3 d Hdated)
      as (pkgs & -> & _). eauto.
  - intros Hnot.
    destruct (get_package_stats julianday now1 now2 now3 d) as [r|e] eqn:Hget.
    + destruct Hnot. apply Hok. eauto.
    + by rewrite (Hfail e eq_refl).
  - intros Hget Hdated.
    destruct (get_package_stats_dated julianday now1 now2 now3 d Hdated)
      as (pkgs & Hok' & _). congruence.
Qed.

(** X12.  The list of entries has one entry per row of the store:
    its length is the count [total] of the summary, and no name occurs
    twice in it. *)
Theorem stats_total_is_length
    (julianday : string → option Q) (now1 now2 now3 : Q) (d : database)
    (pkgs : list Stat.t) (s : Summary.t) :
  get_package_stats julianday now1 now2 now3 d = Ok (pkgs, s) →
  Summary.total s = length pkgs
  ∧ length pkgs = size (packages d)
  ∧ NoDup (Stat.name <$> pkgs).
Proof.
  intros Hget. pose proof Hget as Hget'. unfold get_package_stats in Hget'.
  destruct (mapM_result package_stat _) as [ys|] eqn:Hys; [|done].
  injection Hget' as -> <-. apply mapM_result_Forall2 in Hys.
  assert (Hlen : length pkgs = size (packages d)).
  { rewrite <- (Forall2_length _ _ _ Hys), select_packages_Permutation.
    by rewrite length_fmap, length_map_to_list. }
  split; [by rewrite Hlen|]. split; [done|].
  assert (Hnames : Stat.name <$> pkgs
                   = (fun r : stats_row => r.1.1) <$> select_packages julianday now1 d).
  { symmetry. apply list_eq_Forall2.
    apply Forall2_fmap. eapply Forall2_impl; [exact Hys|].
    intros row e Hstat. by destruct (package_stat_inv _ _ Hstat) as (_ & -> & _). }
  rewrite Hnames, select_packages_Permutation, <- list_fmap_compose.
  erewrite list_fmap_ext; [apply (NoDup_fst_map_to_list (packages d))|].
  by intros i [n p].
Qed.

Lemma stats_total_is_length_witness :
  ∃ pkgs s,
    get_package_stats Sqlite.julianday Sample.now Sample.now Sample.now Sample.db_dust
    = Ok (pkgs, s)
    ∧ Summary.total s = 5%nat ∧ length pkgs = 5%nat.
Proof.
  assert (Hget : get_package_stats Sqlite.julianday Sample.now Sample.now Sample.now
                   Sample.db_dust
                 = Ok (match get_package_stats Sqlite.julianday Sample.now Sample.now
                              Sample.now Sample.db_dust with
                       | Ok r => r
                       | Fail _ => ([], Summary.Make 0 0 0)
                       end))
    by (vm_compute; reflexivity).
  destruct (match get_package_stats Sqlite.julianday Sample.now Sample.now
                    Sample.now Sample.db_dust with
            | Ok r => r
            | Fail _ => ([], Summary.Make 0 0 0)
            end) as [pkgs s] eqn:Hr.
  destruct (stats_total_is_length _ _ _ _ _ _ _ Hget) as (Htotal & Hlen & _).
  exists pkgs, s. split; [exact Hget|]. split.
  - etrans; [exact Htotal|]. etrans; [exact Hlen|]. vm_compute. reflexivity.
  - etrans; [exact Hlen|]. vm_compute. reflexivity.
Defined.

Lemma dust_formula_mono (d1 d2 : Z) :
  (d1 ≤ d2)%Z → Qle (dust_formula d1) (dust_formula d2).
Proof.
  intros Hd. unfold dust_formula. apply Q.min_le_compat_r.
  unfold Qle, Qdiv, Qmult, Qinv, inject_Z. simpl. lia.
Qed.

Lemma dust_formula_bounds (days : Z) :
  Qle (dust_formula days) 100 ∧ ((0 ≤ days)%Z → Qle 0 (dust_formula days)).
Proof.
  unfold dust_formula. split; [apply Q.le_min_r|].
  intros Hd. apply Q.min_glb; [|done].
  unfold Qle, Qdiv, Qmult, Qinv, inject_Z. simpl. lia.
Qed.

(** X13.  The entries also come by descending dust percentage, since the
    percentage grows with the day count; it never exceeds 100 and is not
    negative unless the day count is. *)
Theorem stats_sorted_by_dust
    (julianday : string → option Q) (now1 now2 now3 : Q) (d : database)
    (pkgs : list Stat.t) (s : Summary.t) :
  get_package_stats julianday now1 now2 now3 d = Ok (pkgs, s) →
  StronglySorted (fun e1 e2 => Qle (Stat.dust_percentage e2) (Stat.dust_percentage e1))
                 pkgs
  ∧ ∀ e, e ∈ pkgs →
      Qle (Stat.dust_percentage e) 100
      ∧ ((0 ≤ Stat.days_unused e)%Z → Qle 0 (Stat.dust_percentage e)).
Proof.
  intros Hget. split.
  - pose proof Hget as Hget'. unfold get_package_stats in Hget'.
    destruct (mapM_result package_stat _) as [ys|] eqn:Hys; [|done].
    injection Hget' as -> <-. apply mapM_result_Forall2 in Hys.
    eapply StronglySorted_Forall2; [|exact Hys|apply select_packages_sorted].
    intros r1 r2 e1 e2 H1 H2 Hord. simpl in H1, H2.
    destruct (package_stat_inv _ _ H1) as (Hd1 & _ & _ & _ & -> & _).
    destruct (package_stat_inv _ _ H2) as (Hd2 & _ & _ & _ & -> & _).
    apply dust_formula_mono.
    unfold order_by in Hord. rewrite Hd1, Hd2 in Hord. simpl in Hord.
    destruct Hord as [?|[[= ->] _]]; lia.
  - intros e He.
    destruct (get_package_stats_entry _ _ _ _ _ _ _ _ Hget He) as (p & _ & _ & Hstat).
    destruct (package_stat_inv _ _ Hstat) as (_ & _ & _ & _ & -> & _).
    apply dust_formula_bounds.
Qed.

Lemma stats_sorted_by_dust_witness :
  ∃ pkgs s,
    get_package_stats Sqlite.julianday Sample.now Sample.now Sample.now Sample.db_dust
    = Ok (pkgs, s)
    ∧ Stat.days_unused <$> pkgs = [400; 31; 30; 29; 15]%Z
    ∧ StronglySorted
        (fun e1 e2 => Qle (Stat.dust_percentage e2) (Stat.dust_percentage e1)) pkgs.
Proof.
  assert (Hget : get_package_stats Sqlite.julianday Sample.now Sample.now Sample.now
                   Sample.db_dust
                 = Ok (match get_package_stats Sqlite.julianday Sample.now Sample.now
                              Sample.now Sample.db_dust with
                       | Ok r => r
                       | Fail _ => ([], Summary.Make 0 0 0)
                       end))
    by (vm_compute; reflexivity).
  assert (Hdays : Stat.days_unused <$>
                    (match get_package_stats Sqlite.julianday Sample.now Sample.now
                           Sample.now Sample.db_dust with
                     | Ok r => r
                     | Fail _ => ([], Summary.Make 0 0 0)
                     end).1 = [400; 31; 30; 29; 15]%Z)
    by (vm_compute; reflexivity).
  destruct (match get_package_stats Sqlite.julianday Sample.now Sample.now
                    Sample.now Sample.db_dust with
            | Ok r => r
            | Fail _ => ([], Summary.Make 0 0 0)
            end) as [pkgs s] eqn:Hr.
  destruct (stats_sorted_by_dust _ _ _ _ _ _ _ Hget) as (Hsorted & _).
  exists pkgs, s. split; [exact Hget|]. split; [exact Hdays | exact Hsorted].
Defined.

(** X14.  A package that was never seen is listed with 999 days and a
    full dust percentage whatever the clock says, and it is classified
    ["safe"] as soon as it is explicitly installed. *)
Theorem stats_never_seen
    (julianday : string → option Q) (now1 now2 now3 : Q) (d : database)
    (pkgs : list Stat.t) (s : Summary.t) (n : string) (p : package) :
  get_package_stats julianday now1 now2 now3 d = Ok (pkgs, s) →
  packages d !! n = Some p →
  last_seen p = "Never" →
  ∃ e, e ∈ pkgs ∧ Stat.name e = n ∧ Stat.days_unused e = 999%Z
       ∧ Qeq (Stat.dust_percentage e) 100
       ∧ (Stat.safety e = "safe" ↔ explicit_install p = true).
Proof.
  intros Hget Hn Hseen.
  destruct (get_package_stats_covers _ _ _ _ _ _ _ _ _ Hget Hn) as (e & He & Hname & Hd).
  unfold days_unused in Hd. rewrite decide_True in Hd by done. injection Hd as Hd.
  exists e. split; [done|]. split; [done|]. split; [done|].
  destruct (get_package_stats_entry _ _ _ _ _ _ _ _ Hget He) as (p' & Hn' & _ & Hstat).
  rewrite Hname, Hn in Hn'. injection Hn' as <-.
  destruct (package_stat_inv _ _ Hstat) as (_ & _ & _ & _ & -> & ->).
  rewrite <- Hd. simpl. split; [vm_compute; reflexivity|].
  destruct (explicit_install p); simpl; split; done.
Qed.

Lemma stats_never_seen_witness :
  ∃ pkgs s e,
    get_package_stats Sqlite.julianday Sample.now Sample.now Sample.now Sample.db_never
    = Ok (pkgs, s)
    ∧ e ∈ pkgs ∧ Stat.name e = "vim" ∧ Stat.days_unused e = 999%Z
    ∧ Stat.safety e = "safe".
Proof.
  assert (Hget : get_package_stats Sqlite.julianday Sample.now Sample.now Sample.now
                   Sample.db_never
                 = Ok ([Stat.Make "vim" "Vi Improved" "2023" true "Never" 999 100 "safe"],
                       Summary.Make 1 0 0))
    by (vm_compute; reflexivity).
  assert (Hn : packages Sample.db_never !! "vim"
               = Some (Package "Vi Improved" "2023" true "Never"))
    by (vm_compute; reflexivity).
  destruct (stats_never_seen Sqlite.julianday Sample.now Sample.now Sample.now
              Sample.db_never _ _ "vim" (Package "Vi Improved" "2023" true "Never")
              Hget Hn eq_refl)
    as (e & He & Hname & Hd & _ & Hsafe).
  exists [Stat.Make "vim" "Vi Improved" "2023" true "Never" 999 100 "safe"],
         (Summary.Make 1 0 0), e.
  split; [exact Hget|]. split; [exact He|]. split; [exact Hname|].
  split; [exact Hd|]. apply (proj2 Hsafe). reflexivity.
Defined.

Lemma cast_integer_ge (k : Z) (x : Q) :
  (0 < k)%Z → (k ≤ cast_integer x)%Z ↔ Qle (inject_Z k) x.
Proof.
  intros Hk. destruct x as [n d]. unfold cast_integer, Qle, inject_Z. simpl.
  rewrite Z.mul_1_r.
  pose proof (Z.quot_rem' n (Z.pos d)) as Hqr.
  assert (Hd : (0 < Z.pos d)%Z) by lia.
  generalize dependent (Z.pos d). intros b Hqr Hb.
  destruct (Z.le_gt_cases 0 n) as [Hn|Hn].
  - pose proof (Z.rem_bound_pos n b Hn Hb) as Hr.
    generalize dependent (Z.rem n b). generalize dependent (Z.quot n b).
    intros q r Hqr Hr. split; intros H; nia.
  - pose proof (Z.rem_bound_pos_neg n b Hb ltac:(lia)) as Hr.
    generalize dependent (Z.rem n b). generalize dependent (Z.quot n b).
    intros q r Hqr Hr. split; intros H; nia.
Qed.

Section Counts.

Context (julianday : string → option Q).

(** A row that the third statement counts is counted by the second when
    no more than 23 days pass between the two. *)
Lemma dusty_explicit_unused_week now2 now3 np :
  Qle now3 (now2 + 23) →
  dusty_explicit_where julianday now3 np → unused_week_where julianday now2 np.
Proof.
  intros Hnow. unfold dusty_explicit_where, unused_week_where, sql_where, days_since.
  destruct (julianday (last_seen np.2)) as [j|]; simpl.
  2:{ destruct (explicit_install np.2); simpl; try case_bool_decide; done. }
  destruct (explicit_install np.2); simpl; [|try case_bool_decide; done].
  case_bool_decide as H30; simpl; [|try case_bool_decide; done].
  intros _. f_equal. apply bool_decide_eq_true.
  assert (H31 : (31 ≤ cast_integer (now3 - j))%Z) by lia.
  apply cast_integer_ge in H31; [|lia].
  assert (H8 : (8 ≤ cast_integer (now2 - j))%Z).
  { apply cast_integer_ge; [lia|].
    change (inject_Z 31) with 31%Q in H31. change (inject_Z 8) with 8%Q. lra. }
  lia.
Qed.

End Counts.

(** X15.  The three counts of the summary are ordered: the packages
    counted as dusty and explicit are among those counted as unused for
    a week, which are among all packages, as long as the statement of
    the third count runs no more than 23 days after that of the
    second. *)
Theorem stats_counts_ordered
    (julianday : string → option Q) (now1 now2 now3 : Q) (d : database)
    (pkgs : list Stat.t) (s : Summary.t) :
  get_package_stats julianday now1 now2 now3 d = Ok (pkgs, s) →
  Qle now3 (now2 + 23) →
  (Summary.dusty_explicit s ≤ Summary.unused_week s)%nat
  ∧ (Summary.unused_week s ≤ Summary.total s)%nat.
Proof.
  intros Hget Hnow. unfold get_package_stats in Hget.
  destruct (mapM_result package_stat _) as [ys|]; [|done].
  injection Hget as _ <-. cbn [Summary.dusty_explicit Summary.unused_week Summary.total].
  unfold count_where. split.
  - apply map_subseteq_size, map_filter_subseteq_ext.
    intros n p _. by apply dusty_explicit_unused_week.
  - apply map_subseteq_size, map_filter_subseteq.
Qed.

Lemma stats_counts_ordered_witness :
  ∃ pkgs s,
    get_package_stats Sqlite.julianday Sample.now Sample.now Sample.now Sample.db_dust
    = Ok (pkgs, s)
    ∧ (Summary.dusty_explicit s ≤ Summary.unused_week s)%nat
    ∧ (Summary.unused_week s ≤ Summary.total s)%nat.
Proof.
  assert (Hget : get_package_stats Sqlite.julianday Sample.now Sample.now Sample.now
                   Sample.db_dust
                 = Ok (match get_package_stats Sqlite.julianday Sample.now Sample.now
                              Sample.now Sample.db_dust with
                       | Ok r => r
                       | Fail _ => ([], Summary.Make 0 0 0)
                       end))
    by (vm_compute; reflexivity).
  destruct (match get_package_stats Sqlite.julianday Sample.now Sample.now
                    Sample.now Sample.db_dust with
            | Ok r => r
            | Fail _ => ([], Summary.Make 0 0 0)
            end) as [pkgs s] eqn:Hr.
  assert (Hnow : Qle Sample.now (Sample.now + 23)) by (vm_compute; discriminate).
  exists pkgs, s. split; [exact Hget|].
  exact (stats_counts_ordered Sqlite.julianday Sample.now Sample.now Sample.now
           Sample.db_dust pkgs s Hget Hnow).
Defined.

(** ** The port search *)

Lemma find_free_port_loop_Some try_bind ports p :
  find_free_port_loop try_bind ports = Ok (Some p)
  ↔ ∃ i, ports !! i = Some p ∧ try_bind p = Ok tt
         ∧ ∀ j q, (j < i)%nat → ports !! j = Some q → try_bind q = Fail OSError.
Proof.
  induction ports as [|port rest IH]; cbn [find_free_port_loop].
  - split; [done|]. by intros (i & Hi & _).
  - destruct (try_bind port) as [[]|e] eqn:Hport.
    + split.
      * intros [= <-]. exists 0%nat. split; [done|]. split; [done|]. lia.
      * intros (i & Hi & Hp & Hbusy). destruct i as [|i].
        -- by injection Hi as <-.
        -- specialize (Hbusy 0%nat port ltac:(lia) eq_refl). congruence.
    + assert (Hskip : e ≠ OSError →
                ¬ ∃ i, (port :: rest) !! i = Some p ∧ try_bind p = Ok tt
                       ∧ ∀ j q, (j < i)%nat → (port :: rest) !! j = Some q
                                → try_bind q = Fail OSError).
      { intros He (i & Hi & Hp & Hbusy). destruct i as [|i].
        - injection Hi as <-. congruence.
        - specialize (Hbusy 0%nat port ltac:(lia) eq_refl). congruence. }
      destruct e; try (split; [done|]; intros H; by destruct Hskip).
      rewrite IH. split.
      * intros (i & Hi & Hp & Hbusy). exists (S i). split; [done|]. split; [done|].
        intros [|j] q Hj Hq; [by injection Hq as <-|].
        apply (Hbusy j); [lia|done].
      * intros (i & Hi & Hp & Hbusy). destruct i as [|i].
        -- injection Hi as <-. congruence.
        -- exists i. split; [done|]. split; [done|].
           intros j q Hj Hq. apply (Hbusy (S j)); [lia|done].
Qed.

Lemma find_free_port_loop_None try_bind ports :
  find_free_port_loop try_bind ports = Ok None
  ↔ ∀ q, q ∈ ports → try_bind q = Fail OSError.
Proof.
  induction ports as [|port rest IH]; cbn [find_free_port_loop].
  - split; [|done]. by intros _ q ?%elem_of_nil.
  - destruct (try_bind port) as [[]|e] eqn:Hport.
    + split; [done|]. intros H. specialize (H port (list_elem_of_here _ _)). congruence.
    + destruct e;
        try (split; [done|]; intros H;
             specialize (H port (list_elem_of_here _ _)); congruence).
      rewrite IH. split.
      * intros H q [->|Hq]%elem_of_cons; auto.
      * intros H q Hq. by apply H, list_elem_of_further.
Qed.

(** X16.  [find_free_port] returns a port exactly when that port is the
    first of [range (start_port, start_port + max_attempts)] that binds
    and every port before it fails with [OSError]: the result is the
    lowest free port of the range, and never lies outside it. *)
Theorem find_free_port_lowest
    (try_bind : Z → result unit) (start_port max_attempts p : Z) :
  find_free_port try_bind start_port max_attempts = Ok (Some p)
  ↔ (start_port ≤ p < start_port + max_attempts)%Z
    ∧ try_bind p = Ok tt
    ∧ ∀ q, (start_port ≤ q < p)%Z → try_bind q = Fail OSError.
Proof.
  unfold find_free_port. rewrite find_free_port_loop_Some. split.
  - intros (i & Hi & Hp & Hbusy). apply lookup_seqZ in Hi as [-> Hi].
    split; [lia|]. split; [done|]. intros q Hq.
    apply (Hbusy (Z.to_nat (q - start_port))); [lia|].
    apply lookup_seqZ. lia.
  - intros (Hrange & Hp & Hbusy). exists (Z.to_nat (p - start_port)).
    split; [apply lookup_seqZ; lia|]. split; [done|].
    intros j q Hj [-> Hq]%lookup_seqZ. apply Hbusy. lia.
Qed.

(** X17.  [find_free_port] returns [None] exactly when every port of the
    range fails with [OSError]; with no attempts allowed it returns
    [None] without trying any port. *)
Theorem find_free_port_none
    (try_bind : Z → result unit) (start_port max_attempts : Z) :
  (find_free_port try_bind start_port max_attempts = Ok None
   ↔ ∀ q, (start_port ≤ q < start_port + max_attempts)%Z → try_bind q = Fail OSError)
  ∧ ((max_attempts ≤ 0)%Z → find_free_port try_bind start_port max_attempts = Ok None).
Proof.
  unfold find_free_port. split.
  - rewrite find_free_port_loop_None. by setoid_rewrite elem_of_seqZ.
  - intros Hn. by rewrite seqZ_nil.
Qed.

(** ** The filters of the page *)

Lemma dust_formula_le (days k t : Z) :
  (k < 100)%Z → (∀ m, (m * 100 ≤ k * 30 ↔ m ≤ t)%Z) → (t < 365)%Z →
  Qle_bool (dust_formula days) (inject_Z k) = (days <=? t)%Z.
Proof.
  intros Hk Ht Ht'. apply Bool.eq_true_iff_eq.
  rewrite Qle_bool_iff, Z.leb_le. unfold dust_formula. rewrite Q.min_le_iff.
  unfold Qle, Qdiv, Qmult, Qinv, inject_Z. simpl. rewrite !Z.mul_1_r.
  specialize (Ht (Z.min days 365)). split.
  - intros [H|H]; [|lia]. lia.
  - intros H. left. lia.
Qed.

Lemma getDustClass_formula (days : Z) :
  Js.getDustClass (dust_formula days) = dust_band days.
Proof.
  unfold Js.getDustClass, dust_band.
  change 25%Q with (inject_Z 25). change 50%Q with (inject_Z 50).
  change 75%Q with (inject_Z 75).
  rewrite (dust_formula_le days 25 7), (dust_formula_le days 50 15),
    (dust_formula_le days 75 22); try lia; done.
Qed.

(** X18.  The colour of the dust bar of an entry depends on its day
    count alone: up to 7 days the first band, up to 15 the second, up to
    22 the third, and the last from 23 days on. *)
Theorem dust_class_by_days
    (julianday : string → option Q) (now1 now2 now3 : Q) (d : database)
    (pkgs : list Stat.t) (s : Summary.t) (e : Stat.t) :
  get_package_stats julianday now1 now2 now3 d = Ok (pkgs, s) →
  e ∈ pkgs →
  Js.getDustClass (Stat.dust_percentage e) = dust_band (Stat.days_unused e).
Proof.
  intros Hget He.
  destruct (get_package_stats_entry _ _ _ _ _ _ _ _ Hget He) as (p & _ & _ & Hstat).
  destruct (package_stat_inv _ _ Hstat) as (_ & _ & _ & _ & -> & _).
  apply getDustClass_formula.
Qed.

Lemma dust_class_by_days_witness :
  Js.getDustClass (Stat.dust_percentage
                     (Stat.Make "vim" "Vi Improved" "2023" true "Never" 999 100 "safe"))
  = "dust-75-100".
Proof.
  assert (Hget : get_package_stats Sqlite.julianday Sample.now Sample.now Sample.now
                   Sample.db_never
                 = Ok ([Stat.Make "vim" "Vi Improved" "2023" true "Never" 999 100 "safe"],
                       Summary.Make 1 0 0))
    by (vm_compute; reflexivity).
  exact (dust_class_by_days Sqlite.julianday Sample.now Sample.now Sample.now
           Sample.db_never _ _ _ Hget (list_elem_of_here _ _)).
Defined.

(** X19.  Every entry that the filter "Safe to Remove" shows is shown by
    the filter "Unused (7+ days)" too, is explicitly installed, and has a
    full dust bar of the last band; the filter "Dusty (30+ days)" shows
    it unless its day count has reached 999, the value of a package never
    seen. *)
Theorem safe_filter_entries
    (julianday : string → option Q) (now1 now2 now3 : Q) (d : database)
    (pkgs : list Stat.t) (s : Summary.t) (e : Stat.t) :
  get_package_stats julianday now1 now2 now3 d = Ok (pkgs, s) →
  e ∈ Js.filterPackagesList pkgs "safe" →
  e ∈ Js.filterPackagesList pkgs "unused"
  ∧ Stat.explicit_install e = true
  ∧ Qeq (Stat.dust_percentage e) 100
  ∧ Js.getDustClass (Stat.dust_percentage e) = "dust-75-100"
  ∧ (e ∈ Js.filterPackagesList pkgs "dusty" ↔ (Stat.days_unused e < 999)%Z).
Proof.
  intros Hget. unfold Js.filterPackagesList. cbn [String.eqb Ascii.eqb Bool.eqb andb].
  rewrite !list_elem_of_In, !filter_In, <- !list_elem_of_In.
  intros [He Hsafe]. apply String.eqb_eq in Hsafe.
  destruct (get_package_stats_entry _ _ _ _ _ _ _ _ Hget He) as (p & _ & _ & Hstat).
  destruct (package_stat_inv _ _ Hstat) as (_ & _ & Hex & _ & Hdust & Hs).
  simpl in Hex, Hs. rewrite Hs in Hsafe.
  destruct (explicit_install p); [|done]. simpl in Hsafe.
  case_bool_decide as Hdays; [|done].
  split; [split; [done|]; apply Z.leb_le; lia|].
  split; [done|]. rewrite Hdust.
  split; [apply dust_formula_saturates; lia|].
  split.
  - rewrite getDustClass_formula. unfold dust_band.
    rewrite !(proj2 (Z.leb_gt _ _)) by lia. done.
  - rewrite andb_true_iff, Z.leb_le, Z.ltb_lt. split; [tauto|]. intros. split; [done|lia].
Qed.

Lemma safe_filter_entries_witness :
  Stat.Make "vim" "Vi Improved" "2023" true "Never" 999 100 "safe"
    ∈ Js.filterPackagesList
        [Stat.Make "vim" "Vi Improved" "2023" true "Never" 999 100 "safe"] "unused"
  ∧ ¬ Stat.Make "vim" "Vi Improved" "2023" true "Never" 999 100 "safe"
        ∈ Js.filterPackagesList
            [Stat.Make "vim" "Vi Improved" "2023" true "Never" 999 100 "safe"] "dusty".
Proof.
  assert (Hget : get_package_stats Sqlite.julianday Sample.now Sample.now Sample.now
                   Sample.db_never
                 = Ok ([Stat.Make "vim" "Vi Improved" "2023" true "Never" 999 100 "safe"],
                       Summary.Make 1 0 0))
    by (vm_compute; reflexivity).
  destruct (safe_filter_entries Sqlite.julianday Sample.now Sample.now Sample.now
              Sample.db_never _ _
              (Stat.Make "vim" "Vi Improved" "2023" true "Never" 999 100 "safe")
              Hget (list_elem_of_here _ _))
    as (Hunused & _ & _ & _ & Hdusty).
  split; [exact Hunused|]. intros H. apply Hdusty in H. simpl in H. lia.
Defined.

(** ** The scan cycle, continued *)

Lemma do_GET_scan_true (sys : system) (w w' : world) (ts : string) :
  do_GET_scan sys w = Return (true, ts) w' →
  ∃ w1 w2, scan_installed_packages sys w = Return true w1
           ∧ scan_running_processes sys w1 = Return true w2
           ∧ db w' = db w2.
Proof.
  unfold do_GET_scan, bind, now_isoformat, ret.
  destruct (scan_installed_packages sys w) as [b1 w1|]; [|done].
  destruct (scan_running_processes sys w1) as [b2 w2|] eqn:H2; [|done].
  intros [= Hb _ <-]. apply andb_true_iff in Hb as [-> ->].
  exists w1, w2. by rewrite H2.
Qed.




Lemma reconcile_snapshot_row (sys : system) (w w' : world) (n : string) :
  scan_installed_packages sys w = Return true w' →
  n ∈ snapshot_names sys →
  is_Some (packages (db w') !! n).
Proof.
  intros Hrun Hn.
  pose proof (scan_installed_packages_cases sys w) as Hc.
  unfold snapshot_names in Hn.
  destruct (pacman_Qqe sys) as [explicit|e];
    [|rewrite Hc in Hrun; by case_bool_decide].
  destruct (pacman_Qi sys) as [all_packages|e]; [|by apply elem_of_nil in Hn].
  destruct (inventory_records _ ∅) as [records|e] eqn:Hrec;
    [|destruct Hc as (_ & t & Hc); by rewrite Hc in Hrun].
  rewrite Hc in Hrun. injection Hrun as <-.
  apply (inventory_records_snapshot _ _ _ Hrec), last_is_Some in Hn as [r Hlast].
  destruct (upsert_records_last sys (explicit_set_of explicit) records w n r
              (inventory_records_named _ _ _ Hrec) Hlast)
    as (row & Hrow & _).
  by rewrite Hrow.
Qed.

(** X20.  After a scan cycle that reports success, a package of the
    snapshot that owns a running executable is in the store, installed
    before or not, and the log holds a ["process_scan"] event of that
    package whose timestamp is the [last_seen] of its row. *)
Theorem cycle_touches_snapshot_package
    (sys : system) (w w' : world) (ts : string)
    (entries : list proc_entry) (exe_path n : string) :
  do_GET_scan sys w = Return (true, ts) w' →
  proc_iterdir sys = Ok entries →
  exe_path ∈ exe_paths entries →
  owner sys exe_path = Some n →
  n ∈ snapshot_names sys →
  ∃ row, packages (db w') !! n = Some row
         ∧ UsageEvent n "process_scan" (last_seen row) ∈ usage_events (db w').
Proof.
  intros Hget Hdir Hpath Howner Hn.
  destruct (do_GET_scan_true _ _ _ _ Hget) as (w1 & w2 & H1 & H2 & ->).
  destruct (reconcile_snapshot_row _ _ _ _ H1 Hn) as [row1 Hrow1].
  destruct (scan_running_processes_cases sys w1)
    as [(entries' & Hdir' & _ & _ & Hrun)|(_ & t & Hrun)];
    [|rewrite Hrun in H2; done].
  rewrite Hdir in Hdir'. injection Hdir' as <-.
  rewrite Hrun in H2. injection H2 as <-.
  assert (Hhit : n ∈ omap (owner sys) (exe_paths entries))
    by (apply list_elem_of_omap; eauto).
  exists (set_last_seen (isoformat (clock sys (ticks w1))) row1).
  cbn [db touched packages usage_events]. split.
  - rewrite touched_lookup, decide_True by done. by rewrite Hrow1.
  - apply elem_of_app. right. unfold process_scan_events.
    apply list_elem_of_fmap. exists n. done.
Qed.

Lemma cycle_touches_snapshot_package_witness :
  ∃ w' row,
    do_GET_scan Sample.sys_full (World init_db 0) = Return (true, "2024-03-01T12:00:00") w'
    ∧ packages (db w') !! "vim" = Some row
    ∧ UsageEvent "vim" "process_scan" (last_seen row) ∈ usage_events (db w').
Proof.
  assert (Hget : do_GET_scan Sample.sys_full (World init_db 0)
                 = Return (true, "2024-03-01T12:00:00")
                     (outcome_world (do_GET_scan Sample.sys_full (World init_db 0))))
    by (vm_compute; reflexivity).
  assert (Hpaths : exe_paths (match proc_iterdir Sample.sys_full with
                              | Ok l => l
                              | Fail _ => []
                              end)
                   = ["/usr/bin/bash"; "/usr/bin/bash"; "/usr/bin/vim"])
    by (vm_compute; reflexivity).
  assert (Hnames : snapshot_names Sample.sys_full = ["bash"; "vim"; "zlib"])
    by (vm_compute; reflexivity).
  assert (Hpath : "/usr/bin/vim" ∈ exe_paths (match proc_iterdir Sample.sys_full with
                                               | Ok l => l
                                               | Fail _ => []
                                               end)).
  { apply (eq_ind_r (fun l => "/usr/bin/vim" ∈ l)
             (list_elem_of_further _ _ _ (list_elem_of_further _ _ _
                (list_elem_of_here _ _))) Hpaths). }
  assert (Hn : "vim" ∈ snapshot_names Sample.sys_full).
  { apply (eq_ind_r (fun l => "vim" ∈ l)
             (list_elem_of_further _ _ _ (list_elem_of_here _ _)) Hnames). }
  assert (Ho : owner Sample.sys_full "/usr/bin/vim" = Some "vim")
    by (vm_compute; reflexivity).
  destruct (cycle_touches_snapshot_package Sample.sys_full (World init_db 0)
              (outcome_world (do_GET_scan Sample.sys_full (World init_db 0)))
              "2024-03-01T12:00:00"
              (match proc_iterdir Sample.sys_full with Ok l => l | Fail _ => [] end)
              "/usr/bin/vim" "vim" Hget eq_refl Hpath Ho Hn)
    as (row & Hrow & Hev).
  exists (outcome_world (do_GET_scan Sample.sys_full (World init_db 0))), row.
  split; [exact Hget|]. split; [exact Hrow | exact Hev].
Defined.

Lemma cast_integer_lt (k : Z) (x : Q) :
  (0 < k)%Z → Qlt x (inject_Z k) → (cast_integer x < k)%Z.
Proof.
  intros Hk Hlt.
  destruct (Z.lt_ge_cases (cast_integer x) k) as [|Hge]; [done|].
  apply cast_integer_ge in Hge; [|done]. lra.
Qed.

(** X21.  A package seen running is no removal candidate while the day
    count of SQLite stays short: when the statistics are read with
    [julianday ('now')] less than 31 above the julian day that SQLite
    gives to the time stamp of a process scan that returned [True], the
    entry of every package that the scan hit says at most 30 days unused
    and ["risky"].  The time stamp is the local time of the scan and
    SQLite reads it as UTC, so the bound is one of SQLite's day count,
    whatever the time zone, and not one of elapsed time. *)
Theorem hit_package_is_risky
    (sys : system) (w w' : world) (entries : list proc_entry) (exe_path n : string)
    (julianday : string → option Q) (j now1 now2 now3 : Q)
    (pkgs : list Stat.t) (s : Summary.t) :
  scan_running_processes sys w = Return true w' →
  proc_iterdir sys = Ok entries →
  exe_path ∈ exe_paths entries →
  owner sys exe_path = Some n →
  is_Some (packages (db w) !! n) →
  julianday (isoformat (clock sys (ticks w))) = Some j →
  Qlt (now1 - j) 31 →
  get_package_stats julianday now1 now2 now3 (db w') = Ok (pkgs, s) →
  ∃ e, e ∈ pkgs ∧ Stat.name e = n
       ∧ Stat.days_unused e = cast_integer (now1 - j)
       ∧ (Stat.days_unused e ≤ 30)%Z ∧ Stat.safety e = "risky".
Proof.
  intros Hrun Hdir Hpath Howner [row Hrow] Hj Hlt Hget.
  destruct (scan_running_processes_cases sys w)
    as [(entries' & Hdir' & _ & _ & Hrun')|(_ & t & Hrun')];
    [|rewrite Hrun' in Hrun; done].
  rewrite Hdir in Hdir'. injection Hdir' as <-.
  rewrite Hrun' in Hrun. injection Hrun as <-.
  assert (Hhit : n ∈ omap (owner sys) (exe_paths entries))
    by (apply list_elem_of_omap; eauto).
  set (now := isoformat (clock sys (ticks w))) in *.
  assert (Hn : packages (touched now (omap (owner sys) (exe_paths entries)) (db w)) !! n
               = Some (set_last_seen now row)).
  { cbn [touched packages]. rewrite touched_lookup, decide_True by done.
    by rewrite Hrow. }
  destruct (get_package_stats_covers _ _ _ _ _ _ _ _ _ Hget Hn) as (e & He & Hname & Hd).
  destruct (get_package_stats_entry _ _ _ _ _ _ _ _ Hget He) as (p' & Hn' & _ & Hstat).
  cbn [db] in Hn'. rewrite Hname, Hn in Hn'. injection Hn' as <-.
  destruct (package_stat_inv _ _ Hstat) as (_ & _ & _ & _ & _ & Hsafe).
  unfold days_unused in Hd. cbn [last_seen set_last_seen] in Hd.
  rewrite decide_False in Hd by apply isoformat_not_Never.
  unfold days_since in Hd. rewrite Hj in Hd. simpl in Hd. injection Hd as Hd.
  assert (Hb : (cast_integer (now1 - j) < 31)%Z).
  { apply cast_integer_lt; [lia|]. change (inject_Z 31) with 31%Q. exact Hlt. }
  exists e. split; [done|]. split; [done|]. rewrite <- Hd. split; [done|].
  split; [lia|].
  rewrite Hsafe, <- Hd. rewrite (bool_decide_eq_false_2 (30 < _)%Z) by lia.
  by rewrite andb_false_r.
Qed.

Lemma hit_package_is_risky_witness :
  ∃ w' pkgs s e,
    scan_running_processes Sample.sys_two_shells (World Sample.db_bash 0) = Return true w'
    ∧ get_package_stats Sqlite.julianday Sample.now Sample.now Sample.now (db w')
      = Ok (pkgs, s)
    ∧ e ∈ pkgs ∧ Stat.name e = "bash" ∧ Stat.safety e = "risky".
Proof.
  assert (Hrun : scan_running_processes Sample.sys_two_shells (World Sample.db_bash 0)
                 = Return true (outcome_world (scan_running_processes
                                  Sample.sys_two_shells (World Sample.db_bash 0))))
    by (vm_compute; reflexivity).
  assert (Hpaths : exe_paths (match proc_iterdir Sample.sys_two_shells with
                              | Ok l => l
                              | Fail _ => []
                              end)
                   = ["/usr/bin/bash"; "/usr/bin/bash"; "/usr/bin/vim"])
    by (vm_compute; reflexivity).
  assert (Hpath : "/usr/bin/bash" ∈ exe_paths (match proc_iterdir Sample.sys_two_shells with
                                                | Ok l => l
                                                | Fail _ => []
                                                end)).
  { apply (eq_ind_r (fun l => "/usr/bin/bash" ∈ l) (list_elem_of_here _ _) Hpaths). }
  assert (Ho : owner Sample.sys_two_shells "/usr/bin/bash" = Some "bash")
    by (vm_compute; reflexivity).
  assert (Hrow : is_Some (packages Sample.db_bash !! "bash")).
  { exists Sample.bash_row. vm_compute. reflexivity. }
  assert (Hj : Sqlite.julianday (isoformat (clock Sample.sys_two_shells 0)) = Some Sample.now)
    by (vm_compute; reflexivity).
  assert (Hlt : Qlt (Sample.now - Sample.now) 31) by (vm_compute; reflexivity).
  assert (Hget : get_package_stats Sqlite.julianday Sample.now Sample.now Sample.now
                   (db (outcome_world (scan_running_processes
                                         Sample.sys_two_shells (World Sample.db_bash 0))))
                 = Ok ([Stat.Make "bash" "The GNU Bourne Again shell" "2023" true
                                  "2024-03-01T12:00:00" 0 (0 # 30) "risky"],
                       Summary.Make 1 0 0))
    by (vm_compute; reflexivity).
  destruct (hit_package_is_risky Sample.sys_two_shells (World Sample.db_bash 0)
              (outcome_world (scan_running_processes
                                Sample.sys_two_shells (World Sample.db_bash 0)))
              (match proc_iterdir Sample.sys_two_shells with Ok l => l | Fail _ => [] end)
              "/usr/bin/bash" "bash" Sqlite.julianday Sample.now
              Sample.now Sample.now Sample.now
              [Stat.Make "bash" "The GNU Bourne Again shell" "2023" true
                         "2024-03-01T12:00:00" 0 (0 # 30) "risky"]
              (Summary.Make 1 0 0)
              Hrun eq_refl Hpath Ho Hrow Hj Hlt Hget)
    as (e & He & Hname & _ & _ & Hsafe).
  exists (outcome_world (scan_running_processes
                           Sample.sys_two_shells (World Sample.db_bash 0))),
         [Stat.Make "bash" "The GNU Bourne Again shell" "2023" true
                    "2024-03-01T12:00:00" 0 (0 # 30) "risky"],
         (Summary.Make 1 0 0), e.
  split; [exact Hrun|]. split; [exact Hget|]. split; [exact He|].
  split; [exact Hname | exact Hsafe].
Defined.
